(** * traindurance: the activity-file loaders of [hrv/data.py]

    A shallow embedding of the format detector, the FIT message normaliser,
    the HRMonitorApp text normaliser and the RR-interval extractor, and the
    properties of the natural-language specification stated over it;
    then the duration filter of [app/web/__main__.py] and further
    properties of the loaders (Module [DataExtra]).

    Conventions of the embedding.
    - Python exceptions are values of [exn]; a function that may raise
      returns a [result].
    - A Python [str] is a [string]; the text handled here is ASCII, so the
      character classes of [str.strip], [str.lower] and [int] are given on
      the code points below 128 and every other byte is an ordinary
      character.
    - A [dict] is a [gmap]; none of the properties below depends on the
      insertion order of a dictionary.
    - The collaborators of the module (the FIT decoder, the file system,
      the numeric reductions of numpy) are the variables of Section
      [Loaders]. *)

From Stdlib Require Import ZArith Uint63 Floats Ascii String List Lia.
From stdpp Require Import gmap strings list fin_maps sorting pretty.

#[local] Open Scope string_scope.
#[local] Open Scope Z_scope.

(** ** Python values and exceptions *)

Module Py.

(** The exceptions the module can raise. [OutOfFuel] is not a Python
    exception: it stands for a fuelled loop whose fuel ran out, and
    [DataSpec.load_hrmonitorapp_loop_fuel] shows that the loop of
    [Data.load_hrmonitorapp] never does. *)
Inductive exn : Type :=
| IndexError
| KeyError (key : string)
| ValueError (msg : string)
| AssertionError
| TypeError
| UnboundLocalError (var : string)
| OverflowError
| OSError
| OutOfFuel.

Inductive result (A : Type) : Type :=
| Ok (a : A)
| Err (e : exn).
Arguments Ok {A} a.
Arguments Err {A} e.

#[global] Instance result_ret : MRet result := fun _ a => Ok a.
#[global] Instance result_bind : MBind result :=
  fun _ _ f m => match m with Ok a => f a | Err e => Err e end.

Definition is_ok {A} (r : result A) : bool :=
  match r with Ok _ => true | Err _ => false end.

(** [assert c], in an interpreter that runs assertions (no [-O]). *)
Definition assert (c : bool) : result unit :=
  if c then Ok tt else Err AssertionError.

(** [[f(x) for x in l]], stopping at the first exception. *)
Fixpoint traverse {A B} (f : A -> result B) (l : list A) : result (list B) :=
  match l with
  | [] => Ok []
  | x :: l' => y ← f x; ys ← traverse f l'; Ok (y :: ys)
  end.

(** *** Strings *)

Definition code (c : ascii) : N := N_of_ascii c.

(** [str.isspace] on ASCII: TAB, LF, VT, FF, CR, the four separators
    FS, GS, RS, US, and the space. *)
Definition isspace (c : ascii) : bool :=
  let n := code c in
  ((9 <=? n) && (n <=? 13) || (28 <=? n) && (n <=? 31) || (n =? 32))%N.

Definition isdigit (c : ascii) : bool :=
  let n := code c in ((48 <=? n) && (n <=? 57))%N.

Definition digit_value (c : ascii) : Z := Z.of_N (code c) - 48.

Fixpoint lstrip (s : string) : string :=
  match s with
  | EmptyString => EmptyString
  | String c s' => if isspace c then lstrip s' else s
  end.

Definition reverse_string (s : string) : string :=
  string_of_list_ascii (rev (list_ascii_of_string s)).

(** [s.strip()] *)
Definition strip (s : string) : string :=
  reverse_string (lstrip (reverse_string (lstrip s))).

(** [s.split(sep)] for a separator of one character. *)
Fixpoint split (sep : ascii) (s : string) : list string :=
  match s with
  | EmptyString => [EmptyString]
  | String c s' =>
      if Ascii.eqb c sep then EmptyString :: split sep s'
      else match split sep s' with
           | [] => [String c EmptyString]
           | w :: ws => String c w :: ws
           end
  end.

Definition lower_char (c : ascii) : ascii :=
  let n := code c in
  if ((65 <=? n) && (n <=? 90))%N then ascii_of_N (n + 32) else c.

(** [s.lower()] *)
Fixpoint lower (s : string) : string :=
  match s with
  | EmptyString => EmptyString
  | String c s' => String (lower_char c) (lower s')
  end.

(** [s.startswith(p)] *)
Definition startswith (s p : string) : bool := String.prefix p s.

(** [len(s)] *)
Definition len (s : string) : Z := Z.of_nat (String.length s).

(** [s.rfind(".")], with -1 when there is no dot. *)
Fixpoint rfind_dot_from (i : Z) (s : string) (found : Z) : Z :=
  match s with
  | EmptyString => found
  | String c s' =>
      rfind_dot_from (i + 1) s' (if Ascii.eqb c "."%char then i else found)
  end.
Definition rfind_dot (s : string) : Z := rfind_dot_from 0 s (-1).

(** [s[i:]] *)
Fixpoint drop_string (n : nat) (s : string) : string :=
  match n, s with
  | O, _ => s
  | S n', String _ s' => drop_string n' s'
  | S _, EmptyString => EmptyString
  end.

(** The digits of a decimal literal after a first digit has been read:
    more digits, each optionally preceded by one underscore. *)
Fixpoint int_digits (acc : Z) (s : string) : option Z :=
  match s with
  | EmptyString => Some acc
  | String c s' =>
      if isdigit c then int_digits (10 * acc + digit_value c) s'
      else if Ascii.eqb c "_"%char then
        match s' with
        | String d s'' =>
            if isdigit d then int_digits (10 * acc + digit_value d) s''
            else None
        | EmptyString => None
        end
      else None
  end.

Definition int_unsigned (s : string) : option Z :=
  match s with
  | String c s' => if isdigit c then int_digits (digit_value c) s' else None
  | EmptyString => None
  end.

(** [int(s)] for a string [s]: surrounding white space, an optional sign,
    decimal digits with single underscores between them. *)
Definition int (s : string) : result Z :=
  let s := strip s in
  let r :=
    match s with
    | String "+"%char s' => int_unsigned s'
    | String "-"%char s' => Z.opp <$> int_unsigned s'
    | _ => int_unsigned s
    end in
  match r with
  | Some z => Ok z
  | None => Err (ValueError "invalid literal for int() with base 10")
  end.

(** *** Dictionaries and sequences *)

(** [dict(pairs)]: a later pair replaces an earlier one with the same key. *)
Definition dict {V} (pairs : list (string * V)) : gmap string V :=
  foldl (fun m kv => <[kv.1 := kv.2]> m) ∅ pairs.

(** [d[k]] *)
Definition getitem {V} (d : gmap string V) (k : string) : result V :=
  match d !! k with Some v => Ok v | None => Err (KeyError k) end.

(** [l[i]] for [i >= 0] *)
Definition index {A} (l : list A) (i : nat) : result A :=
  match l !! i with Some x => Ok x | None => Err IndexError end.

(** [l[-1]] *)
Definition index_last {A} (l : list A) : result A :=
  match last l with Some x => Ok x | None => Err IndexError end.

End Py.

(** ** [datetime]: the part of the standard module the loaders use

    Naive date-times with a resolution of one second, with the proleptic
    Gregorian ordinal arithmetic of CPython's [datetime] module. *)

Module Datetime.
Import Py.

Record datetime : Type := mk_datetime {
  year : Z; month : Z; day : Z;
  hour : Z; minute : Z; second : Z
}.

(** [timedelta], normalised: [0 <= seconds < 86400]. *)
Record timedelta : Type := mk_timedelta { days : Z; seconds : Z }.

Definition _MAXORDINAL : Z := 3652059.

Definition _DAYS_IN_MONTH : list Z :=
  [-1; 31; 28; 31; 30; 31; 30; 31; 31; 30; 31; 30; 31].

Definition _DAYS_BEFORE_MONTH : list Z :=
  [-1; 0; 31; 59; 90; 120; 151; 181; 212; 243; 273; 304; 334].

Definition table (l : list Z) (i : Z) : Z := nth (Z.to_nat i) l 0.

Definition _is_leap (y : Z) : bool :=
  (y mod 4 =? 0) && (negb (y mod 100 =? 0) || (y mod 400 =? 0)).

Definition _days_before_year (y : Z) : Z :=
  let y := y - 1 in y * 365 + y / 4 - y / 100 + y / 400.

Definition _days_in_month (y m : Z) : Z :=
  if (m =? 2) && _is_leap y then 29 else table _DAYS_IN_MONTH m.

Definition _days_before_month (y m : Z) : Z :=
  table _DAYS_BEFORE_MONTH m + (if (2 <? m) && _is_leap y then 1 else 0).

Definition _ymd2ord (y m d : Z) : Z :=
  _days_before_year y + _days_before_month y m + d.

Definition _DI400Y : Z := _days_before_year 401.
Definition _DI100Y : Z := _days_before_year 101.
Definition _DI4Y : Z := _days_before_year 5.

Definition _ord2ymd (n : Z) : Z * Z * Z :=
  let n := n - 1 in
  let n400 := n / _DI400Y in
  let n := n mod _DI400Y in
  let y := n400 * 400 + 1 in
  let n100 := n / _DI100Y in
  let n := n mod _DI100Y in
  let n4 := n / _DI4Y in
  let n := n mod _DI4Y in
  let n1 := n / 365 in
  let n := n mod 365 in
  let y := y + n100 * 100 + n4 * 4 + n1 in
  if (n1 =? 4) || (n100 =? 4) then (y - 1, 12, 31)
  else
    let leapyear := (n1 =? 3) && (negb (n4 =? 24) || (n100 =? 3)) in
    let m := Z.shiftr (n + 50) 5 in
    let preceding :=
      table _DAYS_BEFORE_MONTH m + (if (2 <? m) && leapyear then 1 else 0) in
    if n <? preceding then
      let m := m - 1 in
      let preceding :=
        preceding
        - (table _DAYS_IN_MONTH m + (if (m =? 2) && leapyear then 1 else 0)) in
      (y, m, n - preceding + 1)
    else (y, m, n - preceding + 1).

(** [datetime.timedelta(seconds=s)] *)
Definition timedelta_of_seconds (s : Z) : result timedelta :=
  let d := s / 86400 in
  if (Z.abs d <=? 999999999)
  then Ok (mk_timedelta d (s mod 86400))
  else Err OverflowError.

(** [dt + delta] *)
Definition add (dt : datetime) (delta : timedelta) : result datetime :=
  let total :=
    (_ymd2ord (year dt) (month dt) (day dt) + days delta) * 86400
    + hour dt * 3600 + minute dt * 60 + second dt + seconds delta in
  let d := total / 86400 in
  let rem := total mod 86400 in
  let h := rem / 3600 in
  let rem := rem mod 3600 in
  if (0 <? d) && (d <=? _MAXORDINAL) then
    let '(y, m, dd) := _ord2ymd d in
    Ok (mk_datetime y m dd h (rem / 60) (rem mod 60))
  else Err OverflowError.

(** The seconds from [a] to [b]. *)
Definition seconds_between (a b : datetime) : Z :=
  (_ymd2ord (year b) (month b) (day b)
   - _ymd2ord (year a) (month a) (day a)) * 86400
  + (hour b - hour a) * 3600 + (minute b - minute a) * 60
  + (second b - second a).

Definition two_digits (a b : ascii) : option Z :=
  if isdigit a && isdigit b then Some (10 * digit_value a + digit_value b)
  else None.

Definition four_digits (a b c d : ascii) : option Z :=
  hi ← two_digits a b; lo ← two_digits c d; Some (100 * hi + lo).

Definition is_char (c d : ascii) : option unit :=
  if Ascii.eqb c d then Some tt else None.

Definition in_range (lo x hi : Z) : option unit :=
  if (lo <=? x) && (x <=? hi) then Some tt else None.

(** [datetime.fromisoformat] on the strings [YYYY-MM-DD?HH:MM:SS] (any one
    character between the date and the time), the form that
    [datetime.isoformat] writes for a naive date-time without a fraction.
    [Data._hrmonitorapp_date_time_to_datetime] only passes strings of these
    19 characters; the ISO week dates that CPython also reads from 3.11 on
    are not part of this model and are answered with [ValueError]. *)
Definition fromisoformat (s : string) : result datetime :=
  let parsed :=
    match list_ascii_of_string s with
    | [y1; y2; y3; y4; s1; m1; m2; s2; d1; d2; _;
       h1; h2; s3; i1; i2; s4; c1; c2] =>
        y ← four_digits y1 y2 y3 y4;
        _ ← is_char s1 "-";
        m ← two_digits m1 m2;
        _ ← is_char s2 "-";
        d ← two_digits d1 d2;
        h ← two_digits h1 h2;
        _ ← is_char s3 ":";
        i ← two_digits i1 i2;
        _ ← is_char s4 ":";
        c ← two_digits c1 c2;
        _ ← in_range 1 y 9999;
        _ ← in_range 1 m 12;
        _ ← in_range 1 d (_days_in_month y m);
        _ ← in_range 0 h 23;
        _ ← in_range 0 i 59;
        _ ← in_range 0 c 59;
        Some (mk_datetime y m d h i c)
    | _ => None
    end in
  match parsed with
  | Some dt => Ok dt
  | None => Err (ValueError "Invalid isoformat string")
  end.

End Datetime.

(** ** [pathlib]: name and suffix of a POSIX path *)

Module Pathlib.
Import Py.

(** The components of a path: the pieces between slashes, without the
    empty ones and the [.] ones, which [pathlib] drops. *)
Definition parts (path : string) : list string :=
  filter (fun p => p ≠ EmptyString ∧ p ≠ ".") (split "/" path).

(** [path.name] *)
Definition name (path : string) : string :=
  default EmptyString (last (parts path)).

(** [path.suffix]: from the last dot of the name on, when that dot is
    neither its first nor its last character. *)
Definition suffix (path : string) : string :=
  let n := name path in
  let i := rfind_dot n in
  if (0 <? i) && (i <? len n - 1) then drop_string (Z.to_nat i) n
  else EmptyString.

End Pathlib.

(** ** The values of decoded fields and of table cells *)

Module Value.
Import Py Datetime.

(** A field value as the FIT decoder delivers it, a cell of a recordings
    column, or a value of the activity metadata. In a column [VNone] is the
    missing-value marker, whichever of [None], [nan] and [NaT] pandas
    writes for the column's type. *)
#[warnings="-register-all"]
Inductive pyval : Type :=
| VNone
| VInt (z : Z)
| VFloat (f : float)
| VStr (s : string)
| VDatetime (d : datetime)
| VTuple (items : list pyval).

(** [v == s] for a string literal [s] *)
Definition eq_str (v : pyval) (s : string) : bool :=
  match v with VStr s' => String.eqb s' s | _ => false end.

(** [v != None] *)
Definition not_none (v : pyval) : bool :=
  match v with VNone => false | _ => true end.

(** A decoded FIT message: the name of its type and its fields in the
    order of the file. *)
Record message : Type := mk_message {
  msg_name : string;
  msg_fields : list (string * pyval)
}.

Definition tuple_length (v : pyval) : option nat :=
  match v with VTuple items => Some (length items) | _ => None end.

Definition tuple_items (v : pyval) : list pyval :=
  match v with VTuple items => items | _ => [v] end.

(** [np.array(values).flatten()] for scalars or for tuples of one length;
    numpy refuses a list that mixes lengths. *)
Definition array_flatten (values : list pyval) : result (list pyval) :=
  match values with
  | [] => Ok []
  | v :: _ =>
      if forallb (fun w =>
                    bool_decide (tuple_length w = tuple_length v)) values
      then Ok (concat (tuple_items <$> values))
      else Err (ValueError "inhomogeneous shape")
  end.

(** [DataFrame.from_records(rows)] followed by the extraction of every
    column: the columns are the field names seen in some row, and a row
    without the field has the missing-value marker there. *)
Definition column_names (rows : list (gmap string pyval)) : gset string :=
  ⋃ (dom <$> rows).

Definition column (c : string) (rows : list (gmap string pyval)) : list pyval :=
  (fun row => default VNone (row !! c)) <$> rows.

Definition from_records (rows : list (gmap string pyval))
  : gmap string (list pyval) :=
  set_to_map (fun c => (c, column c rows)) (column_names rows).

(** [np.array(rows, dtype=float).T]: every row has the width of the first
    one and every token is a number. *)
Definition float_array (to_float : string -> option float)
    (rows : list (list string)) : result (list (list float)) :=
  match rows with
  | [] => Ok []
  | r :: _ =>
      if forallb (fun row => bool_decide (length row = length r)) rows then
        match mapM (mapM to_float) rows with
        | Some a => Ok a
        | None => Err (ValueError "could not convert string to float")
        end
      else Err (ValueError "inhomogeneous shape")
  end.

Definition transpose (a : list (list float)) : list (list float) :=
  match a with
  | [] => []
  | r :: _ =>
      (fun j => (fun row => nth j row 0%float) <$> a) <$> seq 0 (length r)
  end.

End Value.

(** ** Collaborators and inputs for running the loaders

    Instances of the collaborators that are exact on integer cells, and a
    few decoded files. The theorems of [DataSpec] hold for every collaborator;
    these instances run the loaders on concrete inputs. *)

Module Fixture.
Import Py Datetime Value.

(** The integers of a column, without its missing cells. *)
Fixpoint int_cells (col : list pyval) : result (list Z) :=
  match col with
  | [] => Ok []
  | VNone :: col' => int_cells col'
  | VInt z :: col' => zs ← int_cells col'; Ok (z :: zs)
  | _ :: _ => Err TypeError
  end.

Definition sum_Z (zs : list Z) : Z := foldr Z.add 0 zs.

Definition int_nanmean (col : list pyval) : result pyval :=
  zs ← int_cells col;
  match zs with
  | [] => Err (ValueError "cannot convert float NaN to integer")
  | _ => Ok (VInt (Z.quot (sum_Z zs) (Z.of_nat (length zs))))
  end.

Definition int_nanmedian (col : list pyval) : result pyval :=
  zs ← int_cells col;
  let sorted := merge_sort Z.le zs in
  let n := length sorted in
  match zs with
  | [] => Err (ValueError "cannot convert float NaN to integer")
  | _ =>
      if Nat.even n
      then Ok (VInt (Z.quot (nth (n / 2 - 1) sorted 0
                             + nth (n / 2) sorted 0) 2))
      else Ok (VInt (nth (n / 2) sorted 0))
  end.

Definition duration_s (col : list pyval) : result pyval :=
  match head col, last col with
  | Some (VDatetime a), Some (VDatetime b) => Ok (VInt (seconds_between a b))
  | _, _ => Err TypeError
  end.

(** Decimal integers only. *)
Definition float_of_token (s : string) : option float :=
  match int s with
  | Ok z =>
      let f := PrimFloat.of_uint63 (Uint63.of_Z (Z.abs z)) in
      Some (if z <? 0 then PrimFloat.opp f else f)
  | Err _ => None
  end.

Definition at_ (h i s : Z) : pyval := VDatetime (mk_datetime 2023 1 2 h i s).

Definition sport_message : message :=
  mk_message "sport"
    [("name", VStr "Run"); ("sport", VStr "running");
     ("sub_sport", VStr "generic")].

Definition file_id_message : message :=
  mk_message "file_id"
    [("manufacturer", VStr "garmin"); ("garmin_product", VStr "fr245")].

Definition event_message (event_type : string) (t : pyval) : message :=
  mk_message "event"
    [("timestamp", t); ("event", VStr "timer");
     ("event_type", VStr event_type)].

Definition record_message (t : pyval) (hr : Z) (distance : float) : message :=
  mk_message "record"
    [("timestamp", t); ("heart_rate", VInt hr);
     ("distance", VFloat distance)].

(** A record message of a device without a distance sensor. *)
Definition record_message_hr_only (t : pyval) (hr : Z) : message :=
  mk_message "record" [("timestamp", t); ("heart_rate", VInt hr)].

(** An activity that is paused and resumed: two [start] and two [stop_all]
    timer events. *)
Definition paused_activity : list message :=
  [file_id_message;
   event_message "start" (at_ 10 0 0);
   record_message (at_ 10 0 1) 100 3.5;
   event_message "stop_all" (at_ 10 10 0);
   event_message "start" (at_ 10 20 0);
   record_message (at_ 10 20 1) 121 1000;
   record_message (at_ 10 30 0) 140 2500.5;
   event_message "stop_all" (at_ 10 30 0);
   sport_message].

(** The same file without its [record] messages. *)
Definition no_record_activity : list message :=
  filter (fun m => msg_name m ≠ "record") paused_activity.

(** The same file without its [sport] message. *)
Definition no_sport_activity : list message :=
  filter (fun m => msg_name m ≠ "sport") paused_activity.

Definition no_distance_activity : list message :=
  [file_id_message;
   event_message "start" (at_ 10 0 0);
   record_message_hr_only (at_ 10 0 1) 100;
   record_message_hr_only (at_ 10 30 0) 140;
   event_message "stop_all" (at_ 10 30 0);
   sport_message].

(** What [load_fit] makes of [paused_activity]. *)
Definition paused_metadata : gmap string pyval :=
  dict [("device_manufacturer", VStr "garmin");
        ("device_model", VStr "fr245");
        ("datetime_start", at_ 10 20 0); ("datetime_end", at_ 10 30 0);
        ("name", VStr "Run"); ("sport", VStr "running");
        ("sub_sport", VStr "generic");
        ("duration", VInt 1799); ("distance", VFloat 2500.5);
        ("heartrate_mean", VInt 120); ("heartrate_median", VInt 121)].

Definition paused_recordings : gmap string (list pyval) :=
  dict [("timestamp", [at_ 10 0 1; at_ 10 20 1; at_ 10 30 0]);
        ("heart_rate", [VInt 100; VInt 121; VInt 140]);
        ("distance", [VFloat 3.5; VFloat 1000; VFloat 2500.5])].

Definition newline : string := String (ascii_of_N 10) EmptyString.

Definition text_lines (lines : list string) : list string :=
  (fun l => l ++ newline) <$> lines.

Definition statistics_lines : list string :=
  ["date,01/02/23"; "start,10:00:00"; "duration,01:30:00"].

(** An export with both sections. *)
Definition full_export : list string :=
  text_lines (["HRMonitorApp"; EmptyString; "{Statistics}"]
              ++ statistics_lines
              ++ [EmptyString; "{History}"; "SEC,HR_BPM,ALT";
                  "0,60,12"; "1,62,12"; EmptyString]).

(** An export with a statistics section and no history section. *)
Definition statistics_only_export : list string :=
  text_lines (["{Statistics}"] ++ statistics_lines ++ [EmptyString]).

(** A file system with one file per fixture. *)
Definition fit_files (path : string) : result (list message) :=
  if String.eqb path "activities/paused.fit" then Ok paused_activity
  else if String.eqb path "activities/no_record.fit" then Ok no_record_activity
  else if String.eqb path "activities/no_sport.FIT" then Ok no_sport_activity
  else if String.eqb path "activities/no_distance.fit"
  then Ok no_distance_activity
  else Err OSError.

Definition text_files (path : string) : result (list string) :=
  if String.eqb path "exports/user_hr_data_full.csv" then Ok full_export
  else if String.eqb path "exports/user_hr_data_stats.CSV"
  then Ok statistics_only_export
  else Err OSError.

Definition rr_files (path : string) : result (list float) :=
  if String.eqb path "rr/intervals.csv" then Ok [812; 790.5; 1000]%float
  else Err OSError.

End Fixture.

(** ** [hrv/data.py] *)

Module Data.
Import Py Datetime Pathlib Value.

(** [ACTIVITY_SCHEMA] *)
Definition ACTIVITY_SCHEMA : gmap string pyval :=
  dict [("file_hash", VNone);
        ("name", VNone); ("sport", VNone); ("sub_sport", VNone);
        ("workout", VNone);
        ("device_manufacturer", VNone); ("device_model", VNone);
        ("datetime_start", VNone); ("datetime_end", VNone);
        ("duration", VNone); ("distance", VNone);
        ("heartrate_mean", VNone); ("heartrate_median", VNone)].

(** [_is_hrmonitorapp_activity] *)
Definition _is_hrmonitorapp_activity (path : string) : bool :=
  String.eqb (lower (suffix path)) ".csv"
  && startswith (name path) "user_hr_data_".

(** *** The FIT normaliser, on decoded messages *)

(** [fit_data.get_messages(message_type)], each message as the dictionary
    [{data.name: data.value for data in message}]. *)
Definition get_messages (messages : list message) (message_type : string)
  : list (gmap string pyval) :=
  (fun m => dict (msg_fields m))
    <$> filter (fun m => msg_name m = message_type) messages.

Definition message_types (messages : list message) : gset string :=
  list_to_set (msg_name <$> messages).

(** The [defaultdict(list)] filled by the loop over the message types. *)
Definition group_messages (messages : list message)
  : gmap string (list (gmap string pyval)) :=
  set_to_map (fun t => (t, get_messages messages t)) (message_types messages).

(** [data[k]] on the [defaultdict(list)] *)
Definition defaultdict_get (data : gmap string (list (gmap string pyval)))
    (k : string) : list (gmap string pyval) :=
  default [] (data !! k).

(** The loop over [data["event"]]; the state is
    [(datetime_start, datetime_end)]. *)
Fixpoint scan_events (events : list (gmap string pyval))
    (st : pyval * pyval) : result (pyval * pyval) :=
  match events with
  | [] => Ok st
  | data_event :: events' =>
      event ← getitem data_event "event";
      if negb (eq_str event "timer") then scan_events events' st
      else
        event_type ← getitem data_event "event_type";
        if eq_str event_type "start" then
          timestamp ← getitem data_event "timestamp";
          scan_events events' (timestamp, st.2)
        else if eq_str event_type "stop_all" then
          timestamp ← getitem data_event "timestamp";
          scan_events events' (st.1, timestamp)
        else scan_events events' st
  end.

(** *** The HRMonitorApp normaliser, on strings and lines *)

(** [_hrmonitorapp_date_time_to_datetime] *)
Definition _hrmonitorapp_date_time_to_datetime (date time_ : string)
  : result datetime :=
  _ ← assert ((len date =? 8)
              && (Z.of_nat (length (split "/" date)) =? 3));
  _ ← assert ((len time_ =? 8)
              && (Z.of_nat (length (split ":" time_)) =? 3));
  match split "/" date with
  | [mm; dd; yy] =>
      fromisoformat ("20" ++ yy ++ "-" ++ mm ++ "-" ++ dd ++ " " ++ time_)
  | _ => Err (ValueError "unpack")
  end.

(** [_hrmonitorapp_duration_to_seconds] *)
Definition _hrmonitorapp_duration_to_seconds (duration : string) : result Z :=
  _ ← assert ((len duration =? 8)
              && (Z.of_nat (length (split ":" duration)) =? 3));
  parts ← traverse int (split ":" duration);
  match parts with
  | [hh; mm; ss] => Ok (hh * 3600 + mm * 60 + ss)
  | _ => Err (ValueError "unpack")
  end.

(** [(pair[0].lower(), pair[1])] *)
Definition stats_pair (pair : list string) : result (string * string) :=
  k ← index pair 0; v ← index pair 1; Ok (lower k, v).

(** [_hrmonitorapp_parse_stats] *)
Definition _hrmonitorapp_parse_stats (lines : list string)
  : result (gmap string pyval) :=
  let pairs := split "," <$> lines in
  pairs ← traverse stats_pair pairs;
  let data := dict pairs in
  date ← getitem data "date";
  time_ ← getitem data "start";
  duration ← getitem data "duration";
  datetime_start ← _hrmonitorapp_date_time_to_datetime date time_;
  duration ← _hrmonitorapp_duration_to_seconds duration;
  delta ← timedelta_of_seconds duration;
  datetime_end ← Datetime.add datetime_start delta;
  Ok (dict [("datetime_start", VDatetime datetime_start);
            ("datetime_end", VDatetime datetime_end);
            ("duration", VInt duration)]).

(** [_get_lines_until_blank]: the lines collected and the lines left in the
    file iterator, which has also consumed the blank line. *)
Fixpoint _get_lines_until_blank (file_ : list string)
  : list string * list string :=
  match file_ with
  | [] => ([], [])
  | line :: file_' =>
      let line := strip line in
      if String.eqb line EmptyString then ([], file_')
      else
        let '(lines, rest) := _get_lines_until_blank file_' in
        (line :: lines, rest)
  end.

(** [renames.get(header, header)] *)
Definition rename_header (header : string) : string :=
  default header
    (dict [("sec", "timestamp"); ("hr_bpm", "heart_rate")] !! header).

(** The initial dictionary of [load_hrmonitorapp]. *)
Definition hrmonitorapp_initial : gmap string pyval :=
  dict [("file_hash", VNone);
        ("name", VNone); ("sport", VNone); ("sub_sport", VNone);
        ("workout", VNone);
        ("device_manufacturer", VNone); ("device_model", VNone);
        ("datetime_start", VNone); ("datetime_end", VNone);
        ("duration", VNone); ("distance", VNone);
        ("heartrate_mean", VNone); ("heartrate_median", VNone)].

Section Loaders.

(** [fitparse.FitFile(str(path)).messages]: the decoded data messages of
    the file, in file order. *)
Variable FitFile : string -> result (list message).

(** [open(path, "r")]: the lines of the file, each with its terminator. *)
Variable open_text : string -> result (list string).

(** [np.loadtxt(path)]: the numbers read, in reading order. *)
Variable np_loadtxt : string -> result (list float).

(** [float(token)] as [np.array(..., dtype=float)] applies it. *)
Variable np_float : string -> option float.

(** [int(np.nanmean(column))] and [int(np.nanmedian(column))]. *)
Variable np_int_nanmean : list pyval -> result pyval.
Variable np_int_nanmedian : list pyval -> result pyval.

(** Lines 99 to 104 of [load_fit] on the [timestamp] column, which has a
    cell for every record message: the last cell minus the first one,
    as whole seconds. *)
Variable np_duration_s : list pyval -> result pyval.

(** [load_fit] *)
Definition load_fit (path : string)
  : result (gmap string pyval * gmap string (list pyval)) :=
  messages ← FitFile path;
  let data := group_messages messages in
  let recordings := from_records (defaultdict_get data "record") in
  data_sport ← index (defaultdict_get data "sport") 0;
  name ← getitem data_sport "name";
  sport ← getitem data_sport "sport";
  sub_sport ← getitem data_sport "sub_sport";
  data_file_id ← index (defaultdict_get data "file_id") 0;
  device_manufacturer ← getitem data_file_id "manufacturer";
  device_model ←
    (if eq_str device_manufacturer "garmin"
     then getitem data_file_id "garmin_product"
     else Ok VNone);
  '(datetime_start, datetime_end) ←
    scan_events (defaultdict_get data "event") (VNone, VNone);
  '(heartrate_mean, heartrate_median) ←
    match recordings !! "heart_rate" with
    | Some heartrate =>
        mean ← np_int_nanmean heartrate;
        median ← np_int_nanmedian heartrate;
        Ok (mean, median)
    | None => Ok (VNone, VNone)
    end;
  timestamps ← getitem recordings "timestamp";
  duration ← np_duration_s timestamps;
  distances ← getitem recordings "distance";
  distance ← index_last distances;
  Ok (dict [("device_manufacturer", device_manufacturer);
            ("device_model", device_model);
            ("datetime_start", datetime_start);
            ("datetime_end", datetime_end);
            ("name", name); ("sport", sport); ("sub_sport", sub_sport);
            ("duration", duration); ("distance", distance);
            ("heartrate_mean", heartrate_mean);
            ("heartrate_median", heartrate_median)],
      recordings).

(** [load_fit_records] *)
Definition load_fit_records (path : string)
  : result (list (gmap string pyval)) :=
  messages ← FitFile path;
  Ok (get_messages messages "record").

(** [load_rr_from_fit] *)
Definition load_rr_from_fit (path : string) : result (list pyval) :=
  messages ← FitFile path;
  let records := filter (fun m => msg_name m = "hrv") messages in
  let rr_intervals_with_nones :=
    concat ((fun record => snd <$> msg_fields record) <$> records) in
  rr ← array_flatten rr_intervals_with_nones;
  Ok (filter (fun v => not_none v = true) rr).

(** [load_rr_from_csv] *)
Definition load_rr_from_csv (path : string) : result (list float) :=
  np_loadtxt path.

(** [load_rr] *)
Definition load_rr (path : string) : result (list pyval) :=
  if String.eqb (lower (suffix path)) ".fit" then load_rr_from_fit path
  else if String.eqb (lower (suffix path)) ".csv" then
    rr_raw_ms ← load_rr_from_csv path;
    let rr_raw_s : list float :=
      fmap (M:=list) (fun x => PrimFloat.div x 1000%float) rr_raw_ms in
    Ok (VFloat <$> rr_raw_s)
  else Err (ValueError "input file not supported (must be .fit or .csv)").

(** [_hrmonitorapp_parse_recordings] *)
Definition _hrmonitorapp_parse_recordings (lines_recordings : list string)
  : result (gmap string (list pyval)) :=
  let tokens : list (list string) := split "," <$> lines_recordings in
  headers ← index tokens 0;
  let headers : list string := fmap (M:=list) lower headers in
  let headers : list string := rename_header <$> headers in
  let values := drop 1 tokens in
  values ← float_array np_float values;
  let values := transpose values in
  Ok (dict (zip headers (fmap (M:=list) VFloat <$> values))).

(** The [for line in file_] loop of [load_hrmonitorapp]: [file_] is what
    the file iterator has left, [recordings] is [None] while the variable
    is unbound. Every turn consumes a line, so [length file_] turns
    suffice; the answer is [None] when the fuel is used up before the
    file is. *)
Fixpoint load_hrmonitorapp_loop (fuel : nat) (file_ : list string)
    (data : gmap string pyval)
    (recordings : option (gmap string (list pyval)))
  : option (result (gmap string pyval
                    * option (gmap string (list pyval)))) :=
  match file_ with
  | [] => Some (Ok (data, recordings))
  | line :: file_ =>
      match fuel with
      | O => None
      | S fuel =>
          let line := strip line in
          if String.eqb line "{Statistics}" then
            let '(lines_stats, file_) := _get_lines_until_blank file_ in
            match _hrmonitorapp_parse_stats lines_stats with
            | Ok stats =>
                load_hrmonitorapp_loop fuel file_ (stats ∪ data) recordings
            | Err e => Some (Err e)
            end
          else if String.eqb line "{History}" then
            let '(lines_recordings, file_) :=
              _get_lines_until_blank file_ in
            match _hrmonitorapp_parse_recordings lines_recordings with
            | Ok recordings =>
                load_hrmonitorapp_loop fuel file_ data (Some recordings)
            | Err e => Some (Err e)
            end
          else load_hrmonitorapp_loop fuel file_ data recordings
      end
  end.

(** [load_hrmonitorapp] *)
Definition load_hrmonitorapp (path : string)
  : result (gmap string pyval * gmap string (list pyval)) :=
  file_ ← open_text path;
  '(data, recordings) ←
    default (Err OutOfFuel)
      (load_hrmonitorapp_loop (length file_) file_
                              hrmonitorapp_initial None);
  match recordings with
  | Some recordings => Ok (data, recordings)
  | None => Err (UnboundLocalError "recordings")
  end.

(** [load] *)
Definition load (path : string)
  : result (gmap string pyval * gmap string (list pyval)) :=
  if String.eqb (lower (suffix path)) ".fit" then load_fit path
  else if _is_hrmonitorapp_activity path then load_hrmonitorapp path
  else Err (ValueError ("unsupported activity file format " ++ path)).

End Loaders.

(** *** Notions used to state the properties *)

(** The file names the format detector and the RR extractor look at. *)
Definition is_fit (path : string) : bool :=
  String.eqb (lower (suffix path)) ".fit".

Definition is_csv (path : string) : bool :=
  String.eqb (lower (suffix path)) ".csv".

(** A timer event of the given kind, as the loop of [load_fit] tests it. *)
Definition is_timer_event (kind : string) (ev : gmap string pyval) : bool :=
  match ev !! "event", ev !! "event_type" with
  | Some event, Some event_type =>
      eq_str event "timer" && eq_str event_type kind
  | _, _ => false
  end.

Definition timestamp_of (ev : gmap string pyval) : pyval :=
  default VNone (ev !! "timestamp").

(** The time stamp of the first, and of the last, timer event of a kind;
    [VNone] when there is none. *)
Definition first_timer_timestamp (kind : string)
    (events : list (gmap string pyval)) : pyval :=
  default VNone
    (timestamp_of <$> head (filter (fun ev => is_timer_event kind ev = true)
                                   events)).

Definition last_timer_timestamp (kind : string)
    (events : list (gmap string pyval)) : pyval :=
  default VNone
    (timestamp_of <$> last (filter (fun ev => is_timer_event kind ev = true)
                                   events)).


(** The keys that [load_fit] never sets. *)
Definition caller_keys : gset string := {["file_hash"; "workout"]}.

(** A line that opens the history section. *)
Definition is_history_line (line : string) : bool :=
  String.eqb (strip line) "{History}".

End Data.

(** ** [app/web/__main__.py]: the duration filter of the templates *)

Module Web.
Import Py Datetime.

(** [%d] *)
Definition format_d (n : Z) : string := pretty n.

(** [%02d]: at least two characters, zeros on the left. *)
Definition format_02d (n : Z) : string :=
  let s := pretty n in
  if len s <? 2 then String "0" s else s.

(** [str(duration)] for a [timedelta] without microseconds. *)
Definition timedelta_str (duration : timedelta) : string :=
  let mm := seconds duration / 60 in
  let ss := seconds duration mod 60 in
  let hh := mm / 60 in
  let mm := mm mod 60 in
  let s := format_d hh ++ ":" ++ format_02d mm ++ ":" ++ format_02d ss in
  if days duration =? 0 then s
  else format_d (days duration) ++ " day"
       ++ (if Z.abs (days duration) =? 1 then EmptyString else "s")
       ++ ", " ++ s.

(** [format_seconds_to_days_hours_minutes_seconds], on a whole number of
    seconds. *)
Definition format_seconds_to_days_hours_minutes_seconds (seconds : Z)
  : result string :=
  duration ← timedelta_of_seconds seconds;
  Ok (timedelta_str duration).

End Web.

(** ** Notions and checks by enumeration for the further properties *)

Module Notions.
Import Py Datetime Value Data.

(** The key of a line of a statistics block: its first field, in lower
    case. *)
Definition stats_key (line : string) : string :=
  lower (default EmptyString (head (split "," line))).

(** The second field of a line. *)
Definition stats_field (line : string) : string :=
  default EmptyString (split "," line !! 1%nat).

(** The value a statistics block gives to a key: the second field of the
    last line with that key. *)
Definition stats_value (key : string) (lines : list string) : option string :=
  stats_field <$> last (filter (fun line => stats_key line = key) lines).

(** A line with a comma. *)
Definition has_comma (line : string) : Prop :=
  (2 <= length (split "," line))%nat.

(** An event message that the loop of [load_fit] can read: it has an
    [event] field, and if that is [timer] it has an [event_type] field, and
    if that is [start] or [stop_all] it has a [timestamp] field. *)
Definition event_readable (ev : gmap string pyval) : bool :=
  match ev !! "event" with
  | None => false
  | Some event =>
      if eq_str event "timer" then
        match ev !! "event_type" with
        | None => false
        | Some event_type =>
            if eq_str event_type "start" || eq_str event_type "stop_all"
            then bool_decide (is_Some (ev !! "timestamp"))
            else true
        end
      else true
  end.

(** A line that opens a section of an export. *)
Definition is_section_line (line : string) : bool :=
  String.eqb (strip line) "{Statistics}" || String.eqb (strip line) "{History}".

(** The headers of a history block as the recordings name them. *)
Definition channel_names (header : string) : list string :=
  rename_header <$> (lower <$> split "," header).

(** The numbers [start], [start + 1], ... ([n] of them) satisfy [p]. *)
Fixpoint all_from (p : Z -> bool) (n : nat) (start : Z) : bool :=
  match n with
  | O => true
  | S n' => p start && all_from p n' (start + 1)
  end.

(** A number of at most two digits is printed without a colon, padded or
    not, and [int] reads it back. *)
Definition prints_back (n : Z) : bool :=
  let plain := Web.format_d n in
  let padded := Web.format_02d n in
  bool_decide (split ":" plain = [plain])
  && bool_decide (split ":" padded = [padded])
  && match int plain with Ok z => z =? n | Err _ => false end
  && match int padded with Ok z => z =? n | Err _ => false end
  && (len padded =? 2).

(** The month and the day of day [n] of a year, counted from 0: the last
    step of [_ord2ymd]. *)
Definition month_and_day (leapyear : bool) (n : Z) : Z * Z :=
  let m := Z.shiftr (n + 50) 5 in
  let preceding :=
    table _DAYS_BEFORE_MONTH m + (if (2 <? m) && leapyear then 1 else 0) in
  if n <? preceding then
    let m := m - 1 in
    let preceding :=
      preceding
      - (table _DAYS_IN_MONTH m + (if (m =? 2) && leapyear then 1 else 0)) in
    (m, n - preceding + 1)
  else (m, n - preceding + 1).

(** Day [n] of a year is the day that [month_and_day] gives, counted with
    the days before its month. *)
Definition day_of_year_back (leapyear : bool) (n : Z) : bool :=
  let '(m, d) := month_and_day leapyear n in
  table _DAYS_BEFORE_MONTH m + (if (2 <? m) && leapyear then 1 else 0) + d
  =? n + 1.

End Notions.

(** ** Further inputs for running the loaders *)

Module Sample.
Import Py Datetime Value Fixture.

(** A block that ends after midnight of the last day of a year. *)
Definition new_year_lines : list string :=
  ["date,12/31/23"; "start,23:30:00"; "duration,01:00:00"].

Definition new_year_stats : gmap string pyval :=
  dict [("datetime_start", VDatetime (mk_datetime 2023 12 31 23 30 0));
        ("datetime_end", VDatetime (mk_datetime 2024 1 1 0 30 0));
        ("duration", VInt 3600)].


Definition history_lines : list string :=
  ["SEC,HR_BPM,ALT"; "0,60,12"; "1,62,12"].

Definition history_recordings : gmap string (list pyval) :=
  dict [("timestamp", [VFloat 0; VFloat 1]);
        ("heart_rate", [VFloat 60; VFloat 62]);
        ("alt", [VFloat 12; VFloat 12])].

(** What [load_hrmonitorapp] makes of [full_export]. *)
Definition full_export_metadata : gmap string pyval :=
  dict [("datetime_start", VDatetime (mk_datetime 2023 1 2 10 0 0));
        ("datetime_end", VDatetime (mk_datetime 2023 1 2 11 30 0));
        ("duration", VInt 5400)]
  ∪ Data.ACTIVITY_SCHEMA.

(** An export with a history section and no statistics section. *)
Definition history_only_export : list string :=
  text_lines (["{History}"] ++ history_lines ++ [EmptyString]).

(** [full_export] from its first section on. *)
Definition sections_export : list string := drop 2 full_export.

Definition more_text_files (path : string) : result (list string) :=
  if String.eqb path "exports/user_hr_data_history.csv"
  then Ok history_only_export
  else if String.eqb path "exports/user_hr_data_sections.csv"
  then Ok sections_export
  else text_files path.

(** [paused_activity] without its [file_id] message. *)
Definition no_file_id_activity : list message :=
  filter (fun m => msg_name m ≠ "file_id") paused_activity.

(** [paused_activity] with a lap marker that has no [event] field. *)
Definition marker_activity : list message :=
  paused_activity
  ++ [mk_message "event" [("timestamp", at_ 10 5 0);
                           ("event_type", VStr "marker")]].

(** Two [hrv] messages of five readings, the unused ones [None]. *)
Definition hrv_activity : list message :=
  [file_id_message;
   mk_message "hrv"
     [("time", VTuple [VFloat 0.75; VFloat 0.8125; VNone; VNone; VNone])];
   record_message (at_ 10 0 1) 100 3.5;
   mk_message "hrv"
     [("time", VTuple [VFloat 0.5; VNone; VNone; VNone; VNone])]].

Definition more_fit_files (path : string) : result (list message) :=
  if String.eqb path "activities/no_file_id.fit" then Ok no_file_id_activity
  else if String.eqb path "activities/marker.fit" then Ok marker_activity
  else if String.eqb path "rr/activity.fit" then Ok hrv_activity
  else fit_files path.

End Sample.

(** ** Properties of [hrv/data.py] *)

Module DataSpec.
Import Py Datetime Pathlib Value Data.

#[local] Set Warnings "-clear-no-such-hyp".

(** A closed equation, settled by evaluating both sides. *)
Ltac by_evaluation :=
  match goal with
  | |- @eq ?T _ ?y => vm_cast_no_check (@eq_refl T y)
  end.

(** A closed decidable proposition, settled by running its decision. *)
Ltac by_decision :=
  match goal with
  | |- ?P => apply (bool_decide_eq_true_1 P); by_evaluation
  end.

(** A look-up in a dictionary written out as [dict [...]]. *)
Ltac dict_lookup :=
  unfold dict; cbn [foldl fst snd];
  repeat first [ rewrite lookup_insert_eq
               | rewrite lookup_insert_ne by discriminate ];
  rewrite ?lookup_empty; try reflexivity.

(** *** The result monad *)

Lemma bind_Ok {A B} (m : result A) (k : A -> result B) (b : B) :
  m ≫= k = Ok b -> exists a, m = Ok a /\ k a = Ok b.
Proof. destruct m as [a|e]; [eauto | discriminate]. Qed.

Lemma getitem_Ok {V} (d : gmap string V) k v :
  getitem d k = Ok v <-> d !! k = Some v.
Proof.
  unfold getitem. destruct (d !! k); split; intros H;
    try discriminate; congruence.
Qed.

Lemma getitem_Err {V} (d : gmap string V) k e :
  getitem d k = Err e -> e = KeyError k /\ d !! k = None.
Proof.
  unfold getitem. destruct (d !! k); intros H; [discriminate|].
  split; congruence.
Qed.

Lemma index_Err {A} (l : list A) i e : index l i = Err e -> e = IndexError.
Proof. unfold index. destruct (l !! i); congruence. Qed.

Lemma assert_Ok (c : bool) (u : unit) : assert c = Ok u -> c = true.
Proof. destruct c; [reflexivity | discriminate]. Qed.

Lemma traverse_three {A B} (f : A -> result B) (l : list A) (x y z : B) :
  traverse f l = Ok [x; y; z] ->
  exists a b c, l = [a; b; c] /\ f a = Ok x /\ f b = Ok y /\ f c = Ok z.
Proof.
  destruct l as [|a [|b [|c [|d l]]]]; simpl.
  - discriminate.
  - destruct (f a); simpl; discriminate.
  - destruct (f a), (f b); simpl; discriminate.
  - destruct (f a) eqn:Ha, (f b) eqn:Hb, (f c) eqn:Hc; simpl;
      try discriminate.
    intros [= -> -> ->]. eauto 10.
  - destruct (f a), (f b), (f c), (f d); simpl; try discriminate;
      destruct (traverse f l); simpl; discriminate.
Qed.

(** *** The statistics section of an HRMonitorApp export *)

(** When a duration is read, and what it is then. *)
Lemma duration_to_seconds_Ok (duration : string) (seconds : Z) :
  _hrmonitorapp_duration_to_seconds duration = Ok seconds
  <-> len duration = 8
      /\ exists hs ms ss hh mm sec,
           split ":" duration = [hs; ms; ss]
           /\ int hs = Ok hh /\ int ms = Ok mm /\ int ss = Ok sec
           /\ seconds = hh * 3600 + mm * 60 + sec.
Proof.
  unfold _hrmonitorapp_duration_to_seconds. split.
  - intros H. apply bind_Ok in H as (u & Ha & H).
    apply assert_Ok, andb_true_iff in Ha as [Hlen Hn].
    apply Z.eqb_eq in Hlen. split; [exact Hlen|].
    apply bind_Ok in H as (parts & Hparts & H).
    destruct parts as [|hh [|mm [|sec [|? ?]]]]; try discriminate.
    injection H as <-.
    apply traverse_three in Hparts as (hs & ms & ss & -> & ? & ? & ?).
    eauto 12.
  - intros (Hlen & hs & ms & ss & hh & mm & sec & Hs & Hh & Hm & Hsec & ->).
    rewrite Hlen, Hs. simpl. rewrite Hh, Hm, Hsec. reflexivity.
Qed.

(** C4, as the code has it. A duration is read exactly when it has eight
    characters and splits at its colons into three components that
    [int] accepts, and then it is [hh * 3600 + mm * 60 + ss]; a value of
    another length, or with another number of components, fails the
    assertion. So the unpadded [1:2:3] is refused like [90:00]. *)
Theorem duration_to_seconds_spec (duration : string) :
  (forall seconds : Z,
     _hrmonitorapp_duration_to_seconds duration = Ok seconds
     <-> len duration = 8
         /\ exists hs ms ss hh mm sec,
              split ":" duration = [hs; ms; ss]
              /\ int hs = Ok hh /\ int ms = Ok mm /\ int ss = Ok sec
              /\ seconds = hh * 3600 + mm * 60 + sec)
  /\ (len duration <> 8 \/ length (split ":" duration) <> 3%nat ->
      _hrmonitorapp_duration_to_seconds duration = Err AssertionError).
Proof.
  split; [intros seconds; apply duration_to_seconds_Ok|].
  unfold _hrmonitorapp_duration_to_seconds. intros [Hlen | Hn].
  - apply Z.eqb_neq in Hlen. rewrite Hlen. reflexivity.
  - replace (Z.of_nat (length (split ":" duration)) =? 3) with false.
    + rewrite andb_false_r. reflexivity.
    + symmetry. apply Z.eqb_neq. lia.
Qed.






(** *** Strings as lists of characters *)

Lemma append_nil_l (s : string) : EmptyString ++ s = s.
Proof. reflexivity. Qed.

Lemma append_cons (c : ascii) (a b : string) :
  String c a ++ b = String c (a ++ b).
Proof. reflexivity. Qed.



Lemma split_cons (sep : ascii) (s : string) :
  exists w ws, split sep s = w :: ws.
Proof.
  destruct s as [|c s]; simpl; [eauto|].
  destruct (Ascii.eqb c sep); [eauto|]. destruct (split sep s); eauto.
Qed.






(** *** The scan of an HRMonitorApp export *)

Lemma get_lines_until_blank_rest (file_ : list string) :
  (length (_get_lines_until_blank file_).2 <= length file_)%nat
  /\ forall line, line ∈ (_get_lines_until_blank file_).2 -> line ∈ file_.
Proof.
  induction file_ as [|l file_ [IHlen IHin]]; simpl.
  - split; [lia | auto].
  - destruct (String.eqb (strip l) EmptyString); simpl.
    + split; [lia|]. intros line Hin. now apply list_elem_of_further.
    + destruct (_get_lines_until_blank file_) as [lines rest]. simpl in *.
      split; [lia|]. intros line Hin. apply list_elem_of_further. auto.
Qed.

Lemma parse_stats_dom (lines : list string) (stats : gmap string pyval) :
  _hrmonitorapp_parse_stats lines = Ok stats ->
  dom stats = {["datetime_start"; "datetime_end"; "duration"]}.
Proof.
  intros H. unfold _hrmonitorapp_parse_stats in H.
  repeat (apply bind_Ok in H as (? & _ & H)).
  injection H as <-. unfold dict. cbn [foldl fst snd].
  rewrite !dom_insert_L, dom_empty_L. set_solver.
Qed.

(** *** Grouping and tabulating FIT messages *)

Lemma get_messages_nil (messages : list message) (t : string) :
  (forall m, m ∈ messages -> msg_name m <> t) ->
  get_messages messages t = [].
Proof.
  intros Hno. unfold get_messages.
  destruct (filter (fun m => msg_name m = t) messages) as [|m l] eqn:E;
    [reflexivity|].
  assert (Hm : m ∈ filter (fun m => msg_name m = t) messages)
    by (rewrite E; apply list_elem_of_here).
  apply list_elem_of_filter in Hm as [Hname Hin].
  destruct (Hno m Hin Hname).
Qed.

(** Reading the [defaultdict] at a type gives the messages of that type,
    none when the type does not occur. *)
Lemma defaultdict_get_group (messages : list message) (t : string) :
  defaultdict_get (group_messages messages) t = get_messages messages t.
Proof.
  unfold defaultdict_get.
  destruct (group_messages messages !! t) as [l|] eqn:E.
  - unfold group_messages in E.
    apply lookup_set_to_map in E as (t' & _ & [= -> <-]); [reflexivity|].
    intros ? ? _ _ Heq. exact Heq.
  - simpl. symmetry. apply get_messages_nil. intros m Hin Hname.
    assert (Hsome : group_messages messages !! t
                    = Some (get_messages messages t)).
    { unfold group_messages. apply lookup_set_to_map.
      - intros ? ? _ _ Heq. exact Heq.
      - exists t. split; [|reflexivity].
        unfold message_types. apply elem_of_list_to_set.
        rewrite <- Hname. now apply list_elem_of_fmap_2. }
    rewrite E in Hsome. discriminate.
Qed.

Lemma from_records_lookup_Some (rows : list (gmap string pyval))
    (c : string) (cells : list pyval) :
  from_records rows !! c = Some cells ->
  cells = column c rows /\ exists row, row ∈ rows /\ is_Some (row !! c).
Proof.
  unfold from_records. intros H.
  apply lookup_set_to_map in H as (c' & Hin & [= -> <-]).
  - split; [reflexivity|]. unfold column_names in Hin.
    apply elem_of_union_list in Hin as (X & HX & Hc).
    apply list_elem_of_fmap in HX as (row & -> & Hrow).
    exists row. split; [exact Hrow|]. now apply elem_of_dom.
  - intros ? ? _ _ Heq. exact Heq.
Qed.

Lemma from_records_nil (c : string) : from_records [] !! c = None.
Proof.
  destruct (from_records [] !! c) eqn:E; [|reflexivity].
  apply from_records_lookup_Some in E as (_ & row & Hin & _).
  inversion Hin.
Qed.

(** [dict] only holds pairs of its argument. *)
Lemma dict_lookup_Some {V} (pairs : list (string * V)) (k : string) (v : V) :
  dict pairs !! k = Some v -> (k, v) ∈ pairs.
Proof.
  unfold dict.
  assert (Hgen : forall m : gmap string V,
             foldl (fun m kv => <[kv.1 := kv.2]> m) m pairs !! k = Some v ->
             (k, v) ∈ pairs \/ m !! k = Some v).
  { induction pairs as [|[k' v'] pairs IH]; intros m H; simpl in H.
    - now right.
    - apply IH in H as [H | H].
      + left. now apply list_elem_of_further.
      + simpl in H. destruct (decide (k' = k)) as [->|Hne].
        * rewrite lookup_insert_eq in H. injection H as ->.
          left. apply list_elem_of_here.
        * rewrite lookup_insert_ne in H by exact Hne. now right. }
  intros H. apply Hgen in H as [H | H]; [exact H|].
  rewrite lookup_empty in H. discriminate.
Qed.

(** *** The scan of the timer events *)

Lemma last_filter_cons {A} (f : A -> bool) (x : A) (l : list A) :
  last (filter (fun y => f y = true) (x :: l))
  = match last (filter (fun y => f y = true) l) with
    | Some y => Some y
    | None => if f x then Some x else None
    end.
Proof.
  rewrite filter_cons.
  destruct (decide (f x = true)) as [D|D].
  - rewrite last_cons, D. reflexivity.
  - destruct (f x); [congruence|]. now destruct (last _).
Qed.

Lemma eq_str_true (v : pyval) (s : string) :
  eq_str v s = true -> v = VStr s.
Proof.
  destruct v; simpl; try discriminate. now intros ->%String.eqb_eq.
Qed.

(** After the scan, each of the two variables holds the time stamp of the
    last timer event of its kind, or what it held before when there is no
    such event. *)
Lemma scan_events_last (events : list (gmap string pyval))
    (st st' : pyval * pyval) :
  scan_events events st = Ok st' ->
  st'.1 = default st.1
            (timestamp_of
               <$> last (filter (fun ev => is_timer_event "start" ev = true)
                                events))
  /\ st'.2 = default st.2
               (timestamp_of
                  <$> last (filter
                              (fun ev => is_timer_event "stop_all" ev = true)
                              events)).
Proof.
  revert st. induction events as [|ev events IH]; intros st H.
  - injection H as <-. split; reflexivity.
  - rewrite !last_filter_cons. simpl in H.
    set (Ls := last (filter (fun ev => is_timer_event "start" ev = true)
                            events)) in *.
    set (Le := last (filter (fun ev => is_timer_event "stop_all" ev = true)
                            events)) in *.
    apply bind_Ok in H as (event & Hevent%getitem_Ok & H).
    unfold is_timer_event. rewrite Hevent.
    destruct (eq_str event "timer") eqn:Htimer; simpl in H.
    + apply bind_Ok in H as (event_type & Htype%getitem_Ok & H).
      rewrite Htype. simpl.
      destruct (eq_str event_type "start") eqn:Hstart.
      * apply eq_str_true in Hstart as ->. simpl.
        apply bind_Ok in H as (timestamp & Hts%getitem_Ok & H).
        apply IH in H as [H1 H2]. simpl in H1, H2. rewrite H1, H2.
        split; [destruct Ls | destruct Le]; simpl;
          unfold timestamp_of; rewrite ?Hts; reflexivity.
      * destruct (eq_str event_type "stop_all") eqn:Hstop.
        -- apply bind_Ok in H as (timestamp & Hts%getitem_Ok & H).
           apply IH in H as [H1 H2]. simpl in H1, H2. rewrite H1, H2.
           split; [destruct Ls | destruct Le]; simpl;
             unfold timestamp_of; rewrite ?Hts; reflexivity.
        -- apply IH in H as [H1 H2]. rewrite H1, H2.
           split; [destruct Ls | destruct Le]; reflexivity.
    + apply IH in H as [H1 H2]. rewrite H1, H2. simpl.
      destruct (ev !! "event_type");
        (split; [destruct Ls | destruct Le]; reflexivity).
Qed.

Lemma scan_events_Err (events : list (gmap string pyval))
    (st : pyval * pyval) (e : exn) :
  scan_events events st = Err e -> exists k, e = KeyError k.
Proof.
  revert st. induction events as [|ev events IH]; intros st H;
    [discriminate|]. simpl in H.
  destruct (getitem ev "event") as [event|] eqn:E1; simpl in H;
    [|apply getitem_Err in E1 as [-> _]; injection H as <-; eauto].
  destruct (eq_str event "timer"); simpl in H; [|eauto].
  destruct (getitem ev "event_type") as [event_type|] eqn:E2; simpl in H;
    [|apply getitem_Err in E2 as [-> _]; injection H as <-; eauto].
  destruct (getitem ev "timestamp") as [timestamp|] eqn:E3.
  - destruct (eq_str event_type "start"); simpl in H; [eauto|].
    destruct (eq_str event_type "stop_all"); simpl in H; eauto.
  - apply getitem_Err in E3 as [-> _].
    destruct (eq_str event_type "start"); simpl in H;
      [injection H as <-; eauto|].
    destruct (eq_str event_type "stop_all"); simpl in H;
      [injection H as <-; eauto | eauto].
Qed.

(** Updating the metadata with accepted statistics keeps its keys. *)
Lemma stats_keys_update (stats data : gmap string pyval) :
  dom stats = {["datetime_start"; "datetime_end"; "duration"]} ->
  {["datetime_start"; "datetime_end"; "duration"]} ⊆ dom data ->
  dom (stats ∪ data) = dom data
  /\ {["datetime_start"; "datetime_end"; "duration"]} ⊆ dom (stats ∪ data).
Proof.
  intros Hstats Hdata. rewrite dom_union_L, Hstats. set_solver.
Qed.

Lemma hrmonitorapp_initial_keys :
  {["datetime_start"; "datetime_end"; "duration"]} ⊆ dom hrmonitorapp_initial.
Proof.
  unfold hrmonitorapp_initial, dict. cbn [foldl fst snd].
  rewrite !dom_insert_L. set_solver.
Qed.

(** *** The loaders, for any collaborators *)

Section Collaborators.

Variable FitFile : string -> result (list message).
Variable open_text : string -> result (list string).
Variable np_loadtxt : string -> result (list float).
Variable np_float : string -> option float.
Variable np_int_nanmean : list pyval -> result pyval.
Variable np_int_nanmedian : list pyval -> result pyval.
Variable np_duration_s : list pyval -> result pyval.

#[local] Abbreviation load_fit :=
  (Data.load_fit FitFile np_int_nanmean np_int_nanmedian np_duration_s).
#[local] Abbreviation load_rr := (Data.load_rr FitFile np_loadtxt).
#[local] Abbreviation _hrmonitorapp_parse_recordings :=
  (Data._hrmonitorapp_parse_recordings np_float).
#[local] Abbreviation load_hrmonitorapp_loop :=
  (Data.load_hrmonitorapp_loop np_float).
#[local] Abbreviation load_hrmonitorapp :=
  (Data.load_hrmonitorapp open_text np_float).
#[local] Abbreviation load :=
  (Data.load FitFile open_text np_float
             np_int_nanmean np_int_nanmedian np_duration_s).

(** C6. [load] hands a path to the FIT normaliser exactly when its
    suffix, lower-cased, is [.fit]; to the HRMonitorApp normaliser exactly
    when the suffix is [.csv] and the name starts with [user_hr_data_];
    and it raises [ValueError] (the specification's UnsupportedFormat)
    for every other path, a [.csv] path without the prefix included. The
    three cases exclude each other and cover every path. *)
Theorem load_dispatch (path : string) :
  (lower (suffix path) = ".fit" -> load path = load_fit path)
  /\ (lower (suffix path) = ".csv" ->
      startswith (name path) "user_hr_data_" = true ->
      load path = load_hrmonitorapp path)
  /\ (lower (suffix path) <> ".fit" ->
      ~ (lower (suffix path) = ".csv"
         /\ startswith (name path) "user_hr_data_" = true) ->
      load path
      = Err (ValueError ("unsupported activity file format " ++ path)))
  /\ (lower (suffix path) = ".csv" ->
      startswith (name path) "user_hr_data_" = false ->
      load path
      = Err (ValueError ("unsupported activity file format " ++ path))).
Proof.
  unfold load, _is_hrmonitorapp_activity.
  destruct (String.eqb_spec (lower (suffix path)) ".fit") as [Hfit|Hfit].
  - split; [reflexivity|].
    split; [intros Hc; rewrite Hfit in Hc; discriminate Hc|].
    split; [intros Hn; destruct (Hn Hfit)|].
    intros Hc; rewrite Hfit in Hc; discriminate Hc.
  - split; [intros Hf; destruct (Hfit Hf)|].
    destruct (String.eqb_spec (lower (suffix path)) ".csv") as [Hcsv|Hcsv];
      simpl.
    + destruct (startswith (name path) "user_hr_data_") eqn:Hp.
      * split; [reflexivity|].
        split; [intros _ Hn; destruct Hn; split; [exact Hcsv|reflexivity]|].
        intros _ Hf. discriminate Hf.
      * split; [intros _ Hf; discriminate Hf|]. split; reflexivity.
    + split; [intros Hc; destruct (Hcsv Hc)|].
      split; [reflexivity|]. intros Hc; destruct (Hcsv Hc).
Qed.

(** C8. For a [.csv] path the RR extractor returns the numbers read from
    the file, each divided by 1000 in binary64 arithmetic, in the order
    read. *)
Theorem load_rr_csv (path : string) (rr_raw_ms : list float) :
  lower (suffix path) = ".csv" ->
  np_loadtxt path = Ok rr_raw_ms ->
  exists out,
    load_rr path = Ok out
    /\ length out = length rr_raw_ms
    /\ forall (i : nat) (x : float),
         rr_raw_ms !! i = Some x ->
         out !! i = Some (VFloat (PrimFloat.div x 1000%float)).
Proof.
  intros Hcsv Hload. unfold load_rr, load_rr_from_csv.
  rewrite Hcsv, Hload. simpl.
  eexists. split; [reflexivity|]. split.
  - rewrite !length_fmap. reflexivity.
  - intros i x Hi. rewrite !list_lookup_fmap, Hi. reflexivity.
Qed.

(** The loop of [load_hrmonitorapp] comes to an end on [length file_]
    turns of fuel. *)
Lemma load_hrmonitorapp_loop_fuel (fuel : nat) (file_ : list string)
    data recordings :
  (length file_ <= fuel)%nat ->
  is_Some (load_hrmonitorapp_loop fuel file_ data recordings).
Proof.
  revert file_ data recordings.
  induction fuel as [|fuel IH]; intros file_ data recordings Hlen.
  - destruct file_; simpl in *; [eauto | lia].
  - destruct file_ as [|line file_]; simpl in *; [eauto|].
    pose proof (get_lines_until_blank_rest file_) as [Hrest _].
    destruct (_get_lines_until_blank file_) as [lines rest]. simpl in Hrest.
    destruct (String.eqb (strip line) "{Statistics}").
    + destruct (_hrmonitorapp_parse_stats lines); [|eauto].
      apply IH. lia.
    + destruct (String.eqb (strip line) "{History}").
      * destruct (_hrmonitorapp_parse_recordings lines); [|eauto].
        apply IH. lia.
      * apply IH. lia.
Qed.

(** The keys of the metadata never change during the scan. *)
Lemma load_hrmonitorapp_loop_dom (fuel : nat) (file_ : list string)
    data recordings data' recordings' :
  {["datetime_start"; "datetime_end"; "duration"]} ⊆ dom data ->
  load_hrmonitorapp_loop fuel file_ data recordings
  = Some (Ok (data', recordings')) ->
  dom data' = dom data.
Proof.
  revert file_ data recordings.
  induction fuel as [|fuel IH]; intros file_ data recordings Hdom H;
    destruct file_ as [|line file_]; simpl in H; try discriminate;
    try (injection H as <- <-; reflexivity).
  destruct (_get_lines_until_blank file_) as [lines rest].
  destruct (String.eqb (strip line) "{Statistics}").
  - destruct (_hrmonitorapp_parse_stats lines) as [stats|] eqn:Hstats;
      [|discriminate].
    apply parse_stats_dom in Hstats.
    destruct (stats_keys_update stats data Hstats Hdom) as [Heq Hsub].
    apply IH in H; [|exact Hsub]. rewrite H. exact Heq.
  - destruct (String.eqb (strip line) "{History}").
    + destruct (_hrmonitorapp_parse_recordings lines); [|discriminate].
      now apply IH in H.
    + now apply IH in H.
Qed.

(** Without a history line [recordings] stays unbound. *)
Lemma load_hrmonitorapp_loop_unbound (fuel : nat) (file_ : list string)
    data data' recordings' :
  (forall line, line ∈ file_ -> is_history_line line = false) ->
  load_hrmonitorapp_loop fuel file_ data None
  = Some (Ok (data', recordings')) ->
  recordings' = None.
Proof.
  revert file_ data.
  induction fuel as [|fuel IH]; intros file_ data Hno H;
    destruct file_ as [|line file_]; simpl in H; try discriminate;
    try (injection H as <- <-; reflexivity).
  pose proof (get_lines_until_blank_rest file_) as [_ Hin].
  destruct (_get_lines_until_blank file_) as [lines rest]. simpl in Hin.
  assert (Hrest : forall l, l ∈ rest -> is_history_line l = false).
  { intros l Hl. apply Hno, list_elem_of_further, Hin, Hl. }
  destruct (String.eqb (strip line) "{Statistics}").
  - destruct (_hrmonitorapp_parse_stats lines); [|discriminate].
    eapply IH; eauto.
  - pose proof (Hno line (list_elem_of_here _ _)) as Hline.
    unfold is_history_line in Hline. rewrite Hline in H.
    eapply IH; [|exact H]. intros l Hl. apply Hno.
    now apply list_elem_of_further.
Qed.

(** C3, what the code does. On an export without a history line the
    loader never returns: either a statistics section is refused, or the
    scan ends with [recordings] unbound and the [return] raises
    [UnboundLocalError]. *)
Theorem load_hrmonitorapp_without_history (path : string)
    (file_ : list string) :
  open_text path = Ok file_ ->
  Forall (fun line => is_history_line line = false) file_ ->
  (exists e, load_hrmonitorapp path = Err e)
  /\ (forall data recordings,
        load_hrmonitorapp_loop (length file_) file_
                               hrmonitorapp_initial None
        = Some (Ok (data, recordings)) ->
        load_hrmonitorapp path = Err (UnboundLocalError "recordings")).
Proof.
  intros Hopen Hno. rewrite Forall_forall in Hno.
  unfold load_hrmonitorapp. rewrite Hopen. simpl.
  destruct (load_hrmonitorapp_loop_fuel (length file_) file_
              hrmonitorapp_initial None (Nat.le_refl _)) as [r Hr].
  rewrite Hr. simpl. destruct r as [[data recordings]|e]; simpl.
  - apply load_hrmonitorapp_loop_unbound in Hr as ->; [|exact Hno].
    split; [eauto|]. intros ? ? _. reflexivity.
  - split; [eauto|]. intros ? ? [=].
Qed.

(** What a successful [load_fit] has read, step by step. *)
Lemma load_fit_Ok (path : string) meta recordings :
  load_fit path = Ok (meta, recordings) ->
  exists messages data_sport sports data_file_id file_ids
         name sport sub_sport device_manufacturer device_model
         datetime_start datetime_end heartrate_mean heartrate_median
         timestamps duration distances distance,
    FitFile path = Ok messages
    /\ recordings = from_records (get_messages messages "record")
    /\ get_messages messages "sport" = data_sport :: sports
    /\ data_sport !! "name" = Some name
    /\ data_sport !! "sport" = Some sport
    /\ data_sport !! "sub_sport" = Some sub_sport
    /\ get_messages messages "file_id" = data_file_id :: file_ids
    /\ data_file_id !! "manufacturer" = Some device_manufacturer
    /\ scan_events (get_messages messages "event") (VNone, VNone)
       = Ok (datetime_start, datetime_end)
    /\ recordings !! "timestamp" = Some timestamps
    /\ np_duration_s timestamps = Ok duration
    /\ recordings !! "distance" = Some distances
    /\ last distances = Some distance
    /\ meta
       = dict [("device_manufacturer", device_manufacturer);
               ("device_model", device_model);
               ("datetime_start", datetime_start);
               ("datetime_end", datetime_end);
               ("name", name); ("sport", sport); ("sub_sport", sub_sport);
               ("duration", duration); ("distance", distance);
               ("heartrate_mean", heartrate_mean);
               ("heartrate_median", heartrate_median)].
Proof.
  unfold load_fit. intros H.
  apply bind_Ok in H as (messages & Hfit & H).
  rewrite !defaultdict_get_group in H.
  apply bind_Ok in H as (data_sport & Hsport & H).
  apply bind_Ok in H as (name & Hname%getitem_Ok & H).
  apply bind_Ok in H as (sport & Hsp%getitem_Ok & H).
  apply bind_Ok in H as (sub_sport & Hsub%getitem_Ok & H).
  apply bind_Ok in H as (data_file_id & Hfile & H).
  apply bind_Ok in H as (device_manufacturer & Hman%getitem_Ok & H).
  apply bind_Ok in H as (device_model & _ & H).
  apply bind_Ok in H as ([datetime_start datetime_end] & Hev & H).
  apply bind_Ok in H as ([heartrate_mean heartrate_median] & _ & H).
  apply bind_Ok in H as (timestamps & Hts%getitem_Ok & H).
  apply bind_Ok in H as (duration & Hdur & H).
  apply bind_Ok in H as (distances & Hds%getitem_Ok & H).
  apply bind_Ok in H as (distance & Hd & H).
  injection H as <- <-.
  unfold index in Hsport, Hfile. unfold index_last in Hd.
  destruct (get_messages messages "sport") as [|s sports] eqn:Es;
    [discriminate|]. injection Hsport as ->.
  destruct (get_messages messages "file_id") as [|f file_ids] eqn:Ef;
    [discriminate|]. injection Hfile as ->.
  destruct (last distances) as [d|] eqn:El; [|discriminate].
  injection Hd as ->.
  exists messages, data_sport, sports, data_file_id, file_ids.
  exists name, sport, sub_sport, device_manufacturer, device_model.
  exists datetime_start, datetime_end, heartrate_mean, heartrate_median.
  exists timestamps, duration, distances, distance.
  repeat split; auto.
Qed.

(** C1, what the code does. The metadata of [load_fit] has the keys of
    the schema except [file_hash] and [workout], which it never sets; the
    metadata of [load_hrmonitorapp] has exactly the keys of the schema. *)
Theorem load_keys (path : string) meta recordings :
  (load_fit path = Ok (meta, recordings) ->
   dom meta = dom ACTIVITY_SCHEMA ∖ caller_keys
   /\ meta !! "file_hash" = None /\ meta !! "workout" = None)
  /\ (load_hrmonitorapp path = Ok (meta, recordings) ->
      dom meta = dom ACTIVITY_SCHEMA).
Proof.
  split.
  - intros H. apply load_fit_Ok in H
      as (? & ? & ? & ? & ? & ? & ? & ? & ? & ? & ? & ? & ? & ? & ? & ?
          & ? & ? & _ & _ & _ & _ & _ & _ & _ & _ & _ & _ & _ & _ & _ & ->).
    split; [|split].
    + unfold dict. cbn [foldl fst snd].
      rewrite !dom_insert_L, dom_empty_L. by_evaluation.
    + dict_lookup.
    + dict_lookup.
  - unfold load_hrmonitorapp. intros H.
    apply bind_Ok in H as (file_ & _ & H).
    destruct (load_hrmonitorapp_loop _ _ _ _) as [[[data r]|]|] eqn:Hloop;
      simpl in H; try discriminate.
    destruct r; [|discriminate]. injection H as <- <-.
    apply load_hrmonitorapp_loop_dom in Hloop.
    + rewrite Hloop. reflexivity.
    + exact hrmonitorapp_initial_keys.
Qed.

(** C2, as the code has it. The loop over the event messages assigns on
    every timer event of a kind, so after it [datetime_start] is the time
    stamp of the last [start] timer event and [datetime_end] that of the
    last [stop_all] timer event ([None] when there is no such event). *)
Theorem load_fit_event_timestamps (path : string)
    (messages : list message) meta recordings :
  FitFile path = Ok messages ->
  load_fit path = Ok (meta, recordings) ->
  meta !! "datetime_start"
  = Some (last_timer_timestamp "start" (get_messages messages "event"))
  /\ meta !! "datetime_end"
     = Some (last_timer_timestamp "stop_all"
               (get_messages messages "event")).
Proof.
  intros Hfit H. apply load_fit_Ok in H
    as (messages' & ? & ? & ? & ? & ? & ? & ? & ? & ? & datetime_start
        & datetime_end & ? & ? & ? & ? & ? & ? & Hfit' & _ & _ & _ & _ & _
        & _ & _ & Hev & _ & _ & _ & _ & ->).
  rewrite Hfit in Hfit'. injection Hfit' as <-.
  apply scan_events_last in Hev as [H1 H2]. simpl in H1, H2.
  unfold last_timer_timestamp. rewrite <- H1, <- H2.
  split; dict_lookup.
Qed.

(** C5. A FIT file without [record] messages has an empty recordings
    table, so the look-up of the [timestamp] column for the duration
    raises [KeyError], and [load_fit] returns nothing: it raises that
    error, or the [IndexError] or [KeyError] of an earlier look-up. *)
Theorem load_fit_without_records (path : string)
    (messages : list message) :
  FitFile path = Ok messages ->
  Forall (fun m => msg_name m <> "record") messages ->
  getitem (from_records (get_messages messages "record")) "timestamp"
  = Err (KeyError "timestamp")
  /\ exists e, load_fit path = Err e
               /\ (e = IndexError \/ exists k, e = KeyError k).
Proof.
  intros Hfit Hno. rewrite Forall_forall in Hno.
  apply get_messages_nil in Hno.
  rewrite Hno. unfold getitem at 1. rewrite from_records_nil.
  split; [reflexivity|].
  unfold load_fit. rewrite Hfit. simpl.
  rewrite !defaultdict_get_group, Hno.
  destruct (index (get_messages messages "sport") 0) as [data_sport|e]
    eqn:E; simpl; [|apply index_Err in E; eauto].
  clear E.
  destruct (getitem data_sport "name") as [?|e] eqn:E; simpl;
    [|apply getitem_Err in E as [-> _]; eauto]. clear E.
  destruct (getitem data_sport "sport") as [?|e] eqn:E; simpl;
    [|apply getitem_Err in E as [-> _]; eauto]. clear E.
  destruct (getitem data_sport "sub_sport") as [?|e] eqn:E; simpl;
    [|apply getitem_Err in E as [-> _]; eauto]. clear E.
  destruct (index (get_messages messages "file_id") 0) as [data_file_id|e]
    eqn:E; simpl; [|apply index_Err in E; eauto].
  clear E.
  destruct (getitem data_file_id "manufacturer") as [manufacturer|e] eqn:E;
    simpl; [|apply getitem_Err in E as [-> _]; eauto]. clear E.
  destruct (if eq_str manufacturer "garmin"
            then getitem data_file_id "garmin_product" else Ok VNone)
    as [?|e] eqn:E; simpl.
  2:{ destruct (eq_str manufacturer "garmin"); [|discriminate].
      apply getitem_Err in E as [-> _]. eauto. }
  clear E.
  destruct (scan_events (get_messages messages "event") (VNone, VNone))
    as [[? ?]|e] eqn:E; simpl; [|apply scan_events_Err in E; eauto].
  rewrite from_records_nil. simpl.
  unfold getitem at 1. rewrite from_records_nil. simpl. eauto.
Qed.

(** C7. A FIT file without a [sport] message makes [load_fit] raise the
    [IndexError] of [data["sport"][0]] (the specification's
    MissingRequiredSection); and what [load_fit] returns as [name],
    [sport] and [sub_sport] are the fields of the first [sport] message
    of the file. *)
Theorem load_fit_sport (path : string) (messages : list message) :
  FitFile path = Ok messages ->
  (Forall (fun m => msg_name m <> "sport") messages ->
   load_fit path = Err IndexError)
  /\ (forall meta recordings,
        load_fit path = Ok (meta, recordings) ->
        exists data_sport,
          head (get_messages messages "sport") = Some data_sport
          /\ is_Some (meta !! "name")
          /\ is_Some (meta !! "sport")
          /\ is_Some (meta !! "sub_sport")
          /\ meta !! "name" = data_sport !! "name"
          /\ meta !! "sport" = data_sport !! "sport"
          /\ meta !! "sub_sport" = data_sport !! "sub_sport").
Proof.
  intros Hfit. split.
  - intros Hno. rewrite Forall_forall in Hno.
    apply get_messages_nil in Hno.
    unfold load_fit. rewrite Hfit. simpl.
    rewrite !defaultdict_get_group, Hno. reflexivity.
  - intros meta recordings H. apply load_fit_Ok in H
      as (messages' & data_sport & ? & ? & ? & name & sport & sub_sport
          & ? & ? & ? & ? & ? & ? & ? & ? & ? & ? & Hfit' & _ & Hs & Hname
          & Hsport & Hsub & _ & _ & _ & _ & _ & _ & _ & ->).
    rewrite Hfit in Hfit'. injection Hfit' as <-.
    exists data_sport. rewrite Hs, Hname, Hsport, Hsub.
    split; [reflexivity|].
    repeat split; try (eexists; dict_lookup); dict_lookup.
Qed.

(** C10. When no [record] message has a [distance] field, the recordings
    table has no [distance] column: the look-up of line 105 raises
    [KeyError], and [load_fit] never returns, whatever the other
    messages are. *)
Theorem load_fit_without_distance (path : string)
    (messages : list message) :
  FitFile path = Ok messages ->
  Forall (fun m => msg_name m = "record" ->
                   "distance" ∉ (msg_fields m).*1) messages ->
  getitem (from_records (get_messages messages "record")) "distance"
  = Err (KeyError "distance")
  /\ exists e, load_fit path = Err e.
Proof.
  intros Hfit Hno.
  assert (Hcol : from_records (get_messages messages "record")
                 !! "distance" = None).
  { destruct (from_records _ !! "distance") as [cells|] eqn:E;
      [|reflexivity].
    apply from_records_lookup_Some in E as (_ & row & Hrow & [v Hv]).
    unfold get_messages in Hrow.
    apply list_elem_of_fmap in Hrow as (m & -> & Hm).
    apply list_elem_of_filter in Hm as [Hname Hin].
    apply dict_lookup_Some in Hv. rewrite Forall_forall in Hno.
    destruct (Hno m Hin Hname).
    apply (list_elem_of_fmap_2 fst) in Hv. exact Hv. }
  split; [unfold getitem; now rewrite Hcol|].
  destruct (load_fit path) as [[meta recordings]|e] eqn:E; [|eauto].
  apply load_fit_Ok in E
    as (messages' & ? & ? & ? & ? & ? & ? & ? & ? & ? & ? & ? & ? & ? & ?
        & ? & ? & ? & Hfit' & -> & _ & _ & _ & _ & _ & _ & _ & _ & _ & Hd
        & _).
  rewrite Hfit in Hfit'. injection Hfit' as <-.
  rewrite Hcol in Hd. discriminate.
Qed.

End Collaborators.

(** ** The loaders on concrete files *)

Import Fixture.

Example paused_activity_loaded :
  load_fit fit_files int_nanmean int_nanmedian duration_s
           "activities/paused.fit"
  = Ok (paused_metadata, paused_recordings).
Proof. by_evaluation. Qed.

Example no_record_activity_raises :
  load_fit fit_files int_nanmean int_nanmedian duration_s
           "activities/no_record.fit"
  = Err (KeyError "timestamp").
Proof. by_evaluation. Qed.

Example no_distance_activity_raises :
  load_fit fit_files int_nanmean int_nanmedian duration_s
           "activities/no_distance.fit"
  = Err (KeyError "distance").
Proof. by_evaluation. Qed.

Example statistics_only_export_raises :
  load_hrmonitorapp text_files float_of_token "exports/user_hr_data_stats.CSV"
  = Err (UnboundLocalError "recordings").
Proof. by_evaluation. Qed.

Example full_export_loaded :
  is_ok (load_hrmonitorapp text_files float_of_token
                           "exports/user_hr_data_full.csv") = true.
Proof. by_evaluation. Qed.

Example duration_without_padding :
  _hrmonitorapp_duration_to_seconds "1:2:3" = Err AssertionError
  /\ _hrmonitorapp_duration_to_seconds "90:00" = Err AssertionError
  /\ _hrmonitorapp_duration_to_seconds "01:30:00" = Ok 5400
  /\ _hrmonitorapp_duration_to_seconds "1:02:003" = Ok 3723.
Proof. repeat split; by_evaluation. Qed.

(** ** The theorems at concrete inputs *)

Lemma load_keys_witness :
  dom paused_metadata = dom ACTIVITY_SCHEMA ∖ caller_keys
  /\ paused_metadata !! "file_hash" = None
  /\ paused_metadata !! "workout" = None.
Proof.
  apply (proj1 (load_keys fit_files text_files float_of_token
                          int_nanmean int_nanmedian duration_s
                          "activities/paused.fit"
                          paused_metadata paused_recordings)).
  by_evaluation.
Defined.

Lemma load_fit_event_timestamps_witness :
  paused_metadata !! "datetime_start"
  = Some (last_timer_timestamp "start" (get_messages paused_activity "event"))
  /\ paused_metadata !! "datetime_end"
     = Some (last_timer_timestamp "stop_all"
               (get_messages paused_activity "event")).
Proof.
  apply (load_fit_event_timestamps fit_files int_nanmean int_nanmedian
           duration_s "activities/paused.fit" paused_activity
           paused_metadata paused_recordings).
  - reflexivity.
  - by_evaluation.
Defined.

(** C2 as the specification words it fails on an activity that was paused
    and resumed: the start is the time of the second [start] event, not of
    the first. *)
Lemma first_timer_event_overwritten :
  ~ (forall path messages meta recordings,
       fit_files path = Ok messages ->
       load_fit fit_files int_nanmean int_nanmedian duration_s path
       = Ok (meta, recordings) ->
       meta !! "datetime_start"
       = Some (first_timer_timestamp "start" (get_messages messages "event"))
       /\ meta !! "datetime_end"
          = Some (first_timer_timestamp "stop_all"
                    (get_messages messages "event"))).
Proof.
  intros H.
  destruct (H "activities/paused.fit" paused_activity paused_metadata
              paused_recordings eq_refl paused_activity_loaded) as [Hs _].
  vm_compute in Hs. discriminate Hs.
Qed.

Lemma load_hrmonitorapp_without_history_witness :
  (exists e,
     load_hrmonitorapp text_files float_of_token
                       "exports/user_hr_data_stats.CSV" = Err e)
  /\ (forall data recordings,
        load_hrmonitorapp_loop float_of_token
          (length statistics_only_export) statistics_only_export
          hrmonitorapp_initial None
        = Some (Ok (data, recordings)) ->
        load_hrmonitorapp text_files float_of_token
                          "exports/user_hr_data_stats.CSV"
        = Err (UnboundLocalError "recordings")).
Proof.
  apply (load_hrmonitorapp_without_history text_files float_of_token
           "exports/user_hr_data_stats.CSV" statistics_only_export).
  - reflexivity.
  - by_decision.
Defined.

Lemma duration_to_seconds_spec_witness :
  _hrmonitorapp_duration_to_seconds "90:00" = Err AssertionError
  /\ _hrmonitorapp_duration_to_seconds "1:2:3" = Err AssertionError
  /\ _hrmonitorapp_duration_to_seconds "01:30:00" = Ok 5400.
Proof.
  split; [|split].
  - apply (proj2 (duration_to_seconds_spec "90:00")).
    right. vm_compute. discriminate.
  - apply (proj2 (duration_to_seconds_spec "1:2:3")).
    left. vm_compute. discriminate.
  - apply (proj1 (duration_to_seconds_spec "01:30:00")).
    split; [reflexivity|].
    exists "01", "30", "00", 1, 30, 0. repeat split; reflexivity.
Defined.

(** C4 as the specification words it fails on its own example: [1:2:3] has
    three numeric components and is refused. *)
Lemma unpadded_duration_refused :
  ~ (forall duration hs ms ss hh mm sec,
       split ":" duration = [hs; ms; ss] ->
       int hs = Ok hh -> int ms = Ok mm -> int ss = Ok sec ->
       _hrmonitorapp_duration_to_seconds duration
       = Ok (hh * 3600 + mm * 60 + sec)).
Proof.
  intros H.
  specialize (H "1:2:3" "1" "2" "3" 1 2 3 eq_refl eq_refl eq_refl eq_refl).
  vm_compute in H. discriminate H.
Qed.

Lemma load_fit_without_records_witness :
  getitem (from_records (get_messages no_record_activity "record"))
          "timestamp"
  = Err (KeyError "timestamp")
  /\ exists e,
       load_fit fit_files int_nanmean int_nanmedian duration_s
                "activities/no_record.fit" = Err e
       /\ (e = IndexError \/ exists k, e = KeyError k).
Proof.
  apply (load_fit_without_records fit_files int_nanmean int_nanmedian
           duration_s "activities/no_record.fit" no_record_activity).
  - reflexivity.
  - by_decision.
Defined.

Lemma load_dispatch_witness :
  load fit_files text_files float_of_token int_nanmean int_nanmedian
       duration_s "activities/no_sport.FIT"
  = load_fit fit_files int_nanmean int_nanmedian duration_s
             "activities/no_sport.FIT"
  /\ load fit_files text_files float_of_token int_nanmean int_nanmedian
          duration_s "exports/user_hr_data_stats.CSV"
     = load_hrmonitorapp text_files float_of_token
                         "exports/user_hr_data_stats.CSV"
  /\ load fit_files text_files float_of_token int_nanmean int_nanmedian
          duration_s "exports/notes.txt"
     = Err (ValueError "unsupported activity file format exports/notes.txt")
  /\ load fit_files text_files float_of_token int_nanmean int_nanmedian
          duration_s "exports/hr_data.csv"
     = Err (ValueError "unsupported activity file format exports/hr_data.csv").
Proof.
  split; [|split; [|split]].
  - apply (proj1 (load_dispatch fit_files text_files float_of_token
                    int_nanmean int_nanmedian duration_s
                    "activities/no_sport.FIT")).
    reflexivity.
  - apply (proj1 (proj2 (load_dispatch fit_files text_files float_of_token
                           int_nanmean int_nanmedian duration_s
                           "exports/user_hr_data_stats.CSV")));
      reflexivity.
  - apply (proj1 (proj2 (proj2
             (load_dispatch fit_files text_files float_of_token
                int_nanmean int_nanmedian duration_s "exports/notes.txt")))).
    + vm_compute. discriminate.
    + intros [Hcsv _]. vm_compute in Hcsv. discriminate Hcsv.
  - apply (proj2 (proj2 (proj2
             (load_dispatch fit_files text_files float_of_token
                int_nanmean int_nanmedian duration_s
                "exports/hr_data.csv"))));
      reflexivity.
Defined.

Lemma load_fit_sport_witness :
  load_fit fit_files int_nanmean int_nanmedian duration_s
           "activities/no_sport.FIT" = Err IndexError.
Proof.
  apply (proj1 (load_fit_sport fit_files int_nanmean int_nanmedian
                  duration_s "activities/no_sport.FIT" no_sport_activity
                  eq_refl)).
  by_decision.
Defined.

Lemma load_rr_csv_witness :
  exists out,
    load_rr fit_files rr_files "rr/intervals.csv" = Ok out
    /\ length out = 3%nat
    /\ forall (i : nat) (x : float),
         [812; 790.5; 1000]%float !! i = Some x ->
         out !! i = Some (VFloat (PrimFloat.div x 1000%float)).
Proof.
  apply (load_rr_csv fit_files rr_files "rr/intervals.csv"
           [812; 790.5; 1000]%float); reflexivity.
Defined.


Lemma load_fit_without_distance_witness :
  getitem (from_records (get_messages no_distance_activity "record"))
          "distance"
  = Err (KeyError "distance")
  /\ exists e,
       load_fit fit_files int_nanmean int_nanmedian duration_s
                "activities/no_distance.fit" = Err e.
Proof.
  apply (load_fit_without_distance fit_files int_nanmean int_nanmedian
           duration_s "activities/no_distance.fit" no_distance_activity).
  - reflexivity.
  - by_decision.
Defined.

End DataSpec.

(** ** Further properties of [hrv/data.py] and [app/web/__main__.py] *)

(** ** Further properties of the loaders *)

Module DataExtra.
Import Py Datetime Pathlib Value Data DataSpec Notions.

#[local] Set Warnings "-clear-no-such-hyp".

(** *** Dates and durations *)

Lemma all_from_spec (p : Z -> bool) (n : nat) (start k : Z) :
  all_from p n start = true ->
  start <= k < start + Z.of_nat n ->
  p k = true.
Proof.
  revert start. induction n as [|n IH]; intros start H Hk; [lia|].
  simpl in H. apply andb_true_iff in H as [H0 H].
  destruct (Z.eq_dec k start) as [->|Hne]; [exact H0|].
  apply (IH (start + 1)); [exact H|lia].
Qed.

(** [_ord2ymd], step by step. *)
Lemma ord2ymd_steps (n : Z) :
  let q := (n - 1) / 146097 in
  let r := (n - 1) mod 146097 in
  let c := r / 36524 in
  let f := r mod 36524 / 1461 in
  let a := r mod 36524 mod 1461 / 365 in
  let k := r mod 36524 mod 1461 mod 365 in
  _ord2ymd n
  = if (a =? 4) || (c =? 4)
    then (q * 400 + 1 + c * 100 + f * 4 + a - 1, 12, 31)
    else
      let '(m, d) :=
        month_and_day ((a =? 3) && (negb (f =? 24) || (c =? 3))) k in
      (q * 400 + 1 + c * 100 + f * 4 + a, m, d).
Proof.
  unfold _ord2ymd, month_and_day.
  change _DI400Y with 146097. change _DI100Y with 36524.
  change _DI4Y with 1461. cbv zeta.
  destruct (_ || _); [reflexivity|].
  destruct (_ <? _); reflexivity.
Qed.

(** The days before a year, from its place in the cycles of 400, 100 and
    4 years. *)
Lemma days_before_year_steps (q c f a : Z) :
  0 <= c <= 3 -> 0 <= f <= 24 -> 0 <= a <= 3 ->
  _days_before_year (q * 400 + 1 + c * 100 + f * 4 + a)
  = q * 146097 + c * 36524 + f * 1461 + a * 365.
Proof.
  intros Hc Hf Ha. unfold _days_before_year. cbv zeta.
  Z.div_mod_to_equations. lia.
Qed.

Lemma is_leap_steps (q c f a : Z) :
  0 <= c <= 3 -> 0 <= f <= 24 -> 0 <= a <= 3 ->
  _is_leap (q * 400 + 1 + c * 100 + f * 4 + a)
  = (a =? 3) && (negb (f =? 24) || (c =? 3)).
Proof.
  intros Hc Hf Ha. unfold _is_leap.
  destruct (Z.eqb_spec a 3), (Z.eqb_spec f 24), (Z.eqb_spec c 3);
    repeat match goal with
           | |- context [?x mod ?y =? 0] => destruct (Z.eqb_spec (x mod y) 0)
           end; simpl; try reflexivity; exfalso;
    Z.div_mod_to_equations; lia.
Qed.

(** The days of a leap year and of a common year, one by one. *)
Lemma day_of_year_back_all :
  all_from (day_of_year_back true) 365 0
  && all_from (day_of_year_back false) 365 0 = true.
Proof. by_evaluation. Qed.

(** The date of an ordinal has that ordinal. *)
Lemma ymd2ord_ord2ymd (n : Z) :
  let '(y, m, d) := _ord2ymd n in _ymd2ord y m d = n.
Proof.
  rewrite ord2ymd_steps. cbv zeta.
  set (q := (n - 1) / 146097). set (r := (n - 1) mod 146097).
  set (c := r / 36524). set (r1 := r mod 36524).
  set (f := r1 / 1461). set (r2 := r1 mod 1461).
  set (a := r2 / 365). set (k := r2 mod 365).
  assert (Hn : n - 1 = q * 146097 + r /\ 0 <= r < 146097).
  { unfold q, r. Z.div_mod_to_equations. lia. }
  assert (Hr : r = c * 36524 + r1 /\ 0 <= r1 < 36524).
  { unfold c, r1. Z.div_mod_to_equations. lia. }
  assert (Hr1 : r1 = f * 1461 + r2 /\ 0 <= r2 < 1461).
  { unfold f, r2. Z.div_mod_to_equations. lia. }
  assert (Hr2 : r2 = a * 365 + k /\ 0 <= k < 365).
  { unfold a, k. Z.div_mod_to_equations. lia. }
  clearbody q r c r1 f r2 a k.
  destruct Hn as [Hn ?], Hr as [Hr ?], Hr1 as [Hr1 ?], Hr2 as [Hr2 ?].
  assert (0 <= c <= 4) by lia. assert (0 <= f <= 24) by lia.
  assert (0 <= a <= 4) by lia.
  destruct (Z.eqb_spec a 4) as [Ea|Na]; simpl.
  - unfold _ymd2ord, _days_before_month.
    replace (q * 400 + 1 + c * 100 + f * 4 + a - 1)
      with (q * 400 + 1 + c * 100 + f * 4 + 3) by lia.
    rewrite days_before_year_steps, is_leap_steps by lia.
    destruct (Z.eqb_spec f 24); [lia|]. simpl. unfold table. simpl. lia.
  - destruct (Z.eqb_spec c 4) as [Ec|Nc]; simpl.
    + unfold _ymd2ord, _days_before_month.
      replace (q * 400 + 1 + c * 100 + f * 4 + a - 1)
        with (q * 400 + 1 + 3 * 100 + 24 * 4 + 3) by lia.
      rewrite days_before_year_steps, is_leap_steps by lia.
      simpl. unfold table. simpl. lia.
    + set (leapyear := (a =? 3) && (negb (f =? 24) || (c =? 3))).
      assert (Hk : day_of_year_back leapyear k = true).
      { pose proof day_of_year_back_all as Hall.
        apply andb_true_iff in Hall as [Ht Hf].
        destruct leapyear.
        - apply (all_from_spec _ _ _ _ Ht). lia.
        - apply (all_from_spec _ _ _ _ Hf). lia. }
      unfold day_of_year_back in Hk.
      destruct (month_and_day leapyear k) as [m d].
      apply Z.eqb_eq in Hk.
      unfold _ymd2ord, _days_before_month.
      rewrite days_before_year_steps, is_leap_steps by lia.
      fold leapyear. lia.
Qed.

(** Adding a [timedelta] moves a date-time by its number of seconds. *)
Lemma add_seconds_between (dt e : datetime) (delta : timedelta) :
  Datetime.add dt delta = Ok e ->
  seconds_between dt e = days delta * 86400 + seconds delta.
Proof.
  unfold Datetime.add, seconds_between.
  set (total := (_ymd2ord (year dt) (month dt) (day dt) + days delta) * 86400
                + hour dt * 3600 + minute dt * 60 + second dt
                + seconds delta).
  destruct ((0 <? total / 86400) && (total / 86400 <=? _MAXORDINAL));
    [|discriminate].
  pose proof (ymd2ord_ord2ymd (total / 86400)) as Hrt.
  destruct (_ord2ymd (total / 86400)) as [[y m] d].
  intros [= <-]. simpl. rewrite Hrt.
  pose proof (Z.div_mod total 86400 ltac:(lia)).
  pose proof (Z.div_mod (total mod 86400) 3600 ltac:(lia)).
  pose proof (Z.div_mod ((total mod 86400) mod 3600) 60 ltac:(lia)).
  lia.
Qed.

(** X1. Whenever a statistics block is accepted, [datetime_end] is
    exactly [duration] seconds after [datetime_start], also across
    midnight, the end of a month or of a year, and backwards for a
    negative duration. *)
Theorem parse_stats_end_minus_start (lines : list string)
    (stats : gmap string pyval) :
  _hrmonitorapp_parse_stats lines = Ok stats ->
  exists datetime_start datetime_end duration,
    stats !! "datetime_start" = Some (VDatetime datetime_start)
    /\ stats !! "datetime_end" = Some (VDatetime datetime_end)
    /\ stats !! "duration" = Some (VInt duration)
    /\ seconds_between datetime_start datetime_end = duration.
Proof.
  intros H. unfold _hrmonitorapp_parse_stats in H.
  apply bind_Ok in H as (pairs & _ & H).
  apply bind_Ok in H as (date & _ & H).
  apply bind_Ok in H as (time_ & _ & H).
  apply bind_Ok in H as (duration_s & _ & H).
  apply bind_Ok in H as (datetime_start & _ & H).
  apply bind_Ok in H as (seconds & _ & H).
  apply bind_Ok in H as (delta & Hdelta & H).
  apply bind_Ok in H as (datetime_end & Hend & H).
  injection H as <-.
  exists datetime_start, datetime_end, seconds.
  split; [dict_lookup|]. split; [dict_lookup|]. split; [dict_lookup|].
  rewrite (add_seconds_between _ _ _ Hend).
  unfold timedelta_of_seconds in Hdelta.
  destruct (Z.abs (seconds / 86400) <=? 999999999); [|discriminate].
  injection Hdelta as <-. simpl.
  pose proof (Z.div_mod seconds 86400 ltac:(lia)). lia.
Qed.






(** *** The statistics block, line by line *)

Lemma dict_snoc {V} (pairs : list (string * V)) (k : string) (v : V) :
  dict (pairs ++ [(k, v)]) = <[k := v]> (dict pairs).
Proof. unfold dict. now rewrite foldl_app. Qed.

(** A dictionary holds, for a key, the value of the last pair with it. *)
Lemma dict_lookup_last {V} (pairs : list (string * V)) (k : string) :
  dict pairs !! k = snd <$> last (filter (fun p => p.1 = k) pairs).
Proof.
  induction pairs as [|[k' v'] pairs IH] using rev_ind.
  - reflexivity.
  - rewrite dict_snoc, filter_app, last_app.
    rewrite filter_cons, filter_nil. simpl.
    destruct (decide (k' = k)) as [->|Hne]; simpl.
    + now rewrite lookup_insert_eq.
    + rewrite lookup_insert_ne by exact Hne. exact IH.
Qed.

Lemma stats_pair_Ok (line : string) :
  has_comma line ->
  stats_pair (split "," line) = Ok (stats_key line, stats_field line).
Proof.
  unfold has_comma, stats_pair, stats_key, stats_field, index.
  destruct (split "," line) as [|a [|b l]]; simpl; intros H; try lia.
  reflexivity.
Qed.

Lemma stats_pair_Err (line : string) :
  ~ has_comma line -> stats_pair (split "," line) = Err IndexError.
Proof.
  unfold has_comma, stats_pair, index.
  destruct (split "," line) as [|a [|b l]]; simpl; intros H;
    try reflexivity.
  destruct H. lia.
Qed.

Lemma traverse_stats_pair_Ok (lines : list string) :
  Forall has_comma lines ->
  traverse stats_pair (split "," <$> lines)
  = Ok ((fun line => (stats_key line, stats_field line)) <$> lines).
Proof.
  induction 1 as [|line lines Hc _ IH]; [reflexivity|].
  rewrite !fmap_cons. cbn [traverse].
  rewrite (stats_pair_Ok _ Hc), IH. reflexivity.
Qed.

Lemma traverse_stats_pair_Err (lines : list string) :
  Exists (fun line => ~ has_comma line) lines ->
  traverse stats_pair (split "," <$> lines) = Err IndexError.
Proof.
  induction lines as [|line lines IH]; intros H; [inversion H|].
  rewrite fmap_cons. cbn [traverse].
  destruct (decide (2 <= length (split "," line))%nat) as [Hc|Hc].
  - rewrite (stats_pair_Ok _ Hc).
    apply Exists_cons in H as [H|H]; [destruct (H Hc)|].
    now rewrite (IH H).
  - now rewrite (stats_pair_Err _ Hc).
Qed.

Lemma dict_stats_lines (lines : list string) (key : string) :
  dict ((fun line => (stats_key line, stats_field line)) <$> lines) !! key
  = stats_value key lines.
Proof.
  rewrite dict_lookup_last. unfold stats_value.
  induction lines as [|line lines IH] using rev_ind; [reflexivity|].
  rewrite fmap_app, !filter_app, !last_app. simpl.
  rewrite !filter_cons, !filter_nil. simpl.
  destruct (decide (stats_key line = key)); simpl; [reflexivity|exact IH].
Qed.

(** X3. A statistics block with a line without a comma raises
    [IndexError]; a block whose lines all have one raises [KeyError] for
    the first of [date], [start], [duration] that no line has as its key
    (keys are compared in lower case). *)
Theorem parse_stats_errors (lines : list string) :
  (Exists (fun line => ~ has_comma line) lines ->
   _hrmonitorapp_parse_stats lines = Err IndexError)
  /\ (Forall has_comma lines ->
      (stats_value "date" lines = None ->
       _hrmonitorapp_parse_stats lines = Err (KeyError "date"))
      /\ (is_Some (stats_value "date" lines) ->
          stats_value "start" lines = None ->
          _hrmonitorapp_parse_stats lines = Err (KeyError "start"))
      /\ (is_Some (stats_value "date" lines) ->
          is_Some (stats_value "start" lines) ->
          stats_value "duration" lines = None ->
          _hrmonitorapp_parse_stats lines = Err (KeyError "duration"))).
Proof.
  unfold _hrmonitorapp_parse_stats. split.
  - intros H. now rewrite (traverse_stats_pair_Err _ H).
  - intros H. rewrite (traverse_stats_pair_Ok _ H). simpl.
    unfold getitem. rewrite !dict_stats_lines.
    split; [|split].
    + intros ->. reflexivity.
    + intros [? ->] ->. reflexivity.
    + intros [? ->] [? ->] ->. reflexivity.
Qed.


(** *** Reading a block of lines *)

(** X5. [_get_lines_until_blank] returns the lines before the first blank
    line, stripped, and leaves the iterator after that blank line; without
    a blank line it returns every line and leaves nothing. *)
Theorem get_lines_until_blank_spec (pre post : list string) (blank : string) :
  Forall (fun line => strip line <> EmptyString) pre ->
  (strip blank = EmptyString ->
   _get_lines_until_blank (pre ++ blank :: post) = (strip <$> pre, post))
  /\ _get_lines_until_blank pre = (strip <$> pre, []).
Proof.
  induction 1 as [|line pre Hline _ [IH1 IH2]]; simpl.
  - split; [|reflexivity]. intros ->. reflexivity.
  - apply String.eqb_neq in Hline. rewrite Hline. split.
    + intros Hb. now rewrite (IH1 Hb).
    + now rewrite IH2.
Qed.

(** *** The history block *)

Lemma dom_dict {V} (pairs : list (string * V)) :
  dom (dict pairs) = list_to_set pairs.*1.
Proof.
  induction pairs as [|[k v] pairs IH] using rev_ind.
  - unfold dict. simpl. apply dom_empty_L.
  - rewrite dict_snoc, dom_insert_L, IH, fmap_app, list_to_set_app_L.
    simpl. set_solver.
Qed.

Lemma fst_zip_take {A B} (l : list A) (k : list B) :
  (zip l k).*1 = take (length k) l.
Proof.
  revert k. induction l as [|x l IH]; intros [|y k]; simpl;
    try reflexivity.
  now rewrite IH.
Qed.

(** An accepted table of tokens is rectangular, and so is the array. *)
Lemma float_array_Ok (to_float : string -> option float)
    (rows : list (list string)) (a : list (list float)) :
  float_array to_float rows = Ok a ->
  length a = length rows
  /\ Forall2 (fun row frow => length frow = length row) rows a
  /\ forall r, head rows = Some r ->
               Forall (fun frow => length frow = length r) a.
Proof.
  unfold float_array. destruct rows as [|r rows']; [intros [= <-]; auto|].
  set (rows := r :: rows').
  destruct (forallb _ rows) eqn:Hw; [|discriminate].
  destruct (mapM (mapM to_float) rows) as [a'|] eqn:Hm; [|discriminate].
  intros [= <-]. apply mapM_Some in Hm.
  assert (Hlen : Forall2 (fun row frow => length frow = length row) rows a').
  { eapply Forall2_impl; [exact Hm|]. intros row frow H.
    apply length_mapM in H. now symmetry. }
  split; [symmetry; eapply Forall2_length; exact Hm|].
  split; [exact Hlen|].
  intros r0 [= <-].
  rewrite forallb_forall in Hw.
  clear Hm. induction Hlen as [|row frow rows0 a0 H _ IH]; constructor.
  - rewrite H. pose proof (Hw row (or_introl eq_refl)) as Hb.
    now apply bool_decide_eq_true in Hb.
  - apply IH. intros x Hx. apply Hw. now right.
Qed.

Lemma transpose_columns (a : list (list float)) (w : nat) :
  Forall (fun frow => length frow = w) a ->
  a <> [] ->
  length (transpose a) = w
  /\ Forall (fun col => length col = length a) (transpose a).
Proof.
  intros Hw Hne. destruct a as [|r a']; [destruct Hne; reflexivity|].
  unfold transpose. split.
  - rewrite length_fmap, length_seq. now inversion Hw.
  - apply Forall_fmap, Forall_forall. intros j _. simpl.
    now rewrite length_fmap.
Qed.

Section History.

Variable np_float : string -> option float.

#[local] Abbreviation _hrmonitorapp_parse_recordings :=
  (Data._hrmonitorapp_parse_recordings np_float).

(** X6. The recordings of an accepted history block are aligned: every
    channel has one value for each data line. The channels are named by
    the header fields, lower-cased, with [sec] renamed [timestamp] and
    [hr_bpm] renamed [heart_rate]; only as many header fields are used as
    the data lines have columns (none without a data line), and a header
    that is shorter or longer than the data lines is not an error. *)
Theorem parse_recordings_aligned (lines : list string)
    (recordings : gmap string (list pyval)) :
  _hrmonitorapp_parse_recordings lines = Ok recordings ->
  exists header rows,
    lines = header :: rows
    /\ (forall channel cells,
          recordings !! channel = Some cells -> length cells = length rows)
    /\ dom recordings
       = list_to_set
           (take (default 0%nat
                    ((fun row => length (split "," row)) <$> head rows))
                 (channel_names header)).
Proof.
  unfold Data._hrmonitorapp_parse_recordings. intros H.
  apply bind_Ok in H as (headers & Hh & H).
  apply bind_Ok in H as (a & Ha & H). injection H as <-.
  destruct lines as [|header rows]; [discriminate Hh|].
  rewrite fmap_cons in Hh, Ha. injection Hh as <-.
  cbn [drop] in Ha. rewrite drop_0 in Ha.
  apply float_array_Ok in Ha as (Hlen & Hrows & Hw).
  rewrite length_fmap in Hlen.
  exists header, rows. split; [reflexivity|].
  destruct rows as [|r rows'].
  - destruct a; [|discriminate Hlen]. simpl.
    rewrite zip_with_nil_r. split; [|apply dom_empty_L].
    intros channel cells Hc. discriminate Hc.
  - specialize (Hw (split "," r) eq_refl).
    assert (Hne : a <> []) by (destruct a; [discriminate Hlen|discriminate]).
    destruct (transpose_columns a _ Hw Hne) as [Hcols Hcol].
    split.
    + intros channel cells Hc. apply dict_lookup_Some in Hc.
      apply elem_of_zip_r in Hc.
      apply list_elem_of_fmap in Hc as (col & -> & Hin).
      rewrite Forall_forall in Hcol.
      rewrite length_fmap, (Hcol col Hin). exact Hlen.
    + rewrite dom_dict, fst_zip_take, length_fmap, Hcols. reflexivity.
Qed.

(** X7. A history block without lines raises [IndexError]; one whose data
    lines differ in their number of fields raises [ValueError]; and so does
    one with a field that is not a number. *)
Theorem parse_recordings_errors (header r : string) (rows : list string) :
  _hrmonitorapp_parse_recordings [] = Err IndexError
  /\ (Exists (fun row => length (split "," row) <> length (split "," r)) rows ->
      _hrmonitorapp_parse_recordings (header :: r :: rows)
      = Err (ValueError "inhomogeneous shape"))
  /\ (Forall (fun row => length (split "," row) = length (split "," r)) rows ->
      Exists (fun row => Exists (fun token => np_float token = None)
                                (split "," row)) (r :: rows) ->
      _hrmonitorapp_parse_recordings (header :: r :: rows)
      = Err (ValueError "could not convert string to float")).
Proof.
  split; [reflexivity|].
  unfold Data._hrmonitorapp_parse_recordings.
  rewrite !fmap_cons. cbn [index lookup list_lookup mbind result_bind drop].
  unfold float_array. split.
  - intros Hex.
    destruct (forallb _ _) eqn:Hw; [|reflexivity].
    rewrite forallb_forall in Hw. exfalso.
    apply Exists_exists in Hex as (row & Hin & Hne). apply Hne.
    assert (Hb : In (split "," row) (split "," r :: (split "," <$> rows))).
    { right. apply in_map. now apply list_elem_of_In. }
    apply Hw in Hb. now apply bool_decide_eq_true in Hb.
  - intros Hall Hex.
    destruct (forallb _ _) eqn:Hw.
    + destruct (mapM _ _) as [a|] eqn:Hm; [|reflexivity].
      exfalso. apply mapM_Some in Hm.
      apply Exists_exists in Hex as (row & Hin & Hex).
      assert (Hrow : split "," row ∈ split "," r :: (split "," <$> rows)).
      { rewrite <- fmap_cons. now apply list_elem_of_fmap_2. }
      apply list_elem_of_lookup in Hrow as [i Hi].
      destruct (Forall2_lookup_l _ _ _ _ _ Hm Hi) as (frow & _ & Hf).
      apply mapM_Some in Hf.
      apply Exists_exists in Hex as (token & Htok & Hnone).
      apply list_elem_of_lookup in Htok as [j Hj].
      destruct (Forall2_lookup_l _ _ _ _ _ Hf Hj) as (x & _ & Hx).
      congruence.
    + exfalso. apply not_true_iff_false in Hw. apply Hw.
      apply forallb_forall. intros row Hin.
      apply bool_decide_eq_true. destruct Hin as [<-|Hin]; [reflexivity|].
      apply in_map_iff in Hin as (row' & <- & Hin').
      rewrite Forall_forall in Hall. apply Hall.
      now apply list_elem_of_In.
Qed.

End History.

(** *** The scan of an export *)

Lemma initial_lookup (k : string) :
  k ∈ dom ACTIVITY_SCHEMA -> hrmonitorapp_initial !! k = Some VNone.
Proof.
  intros Hk. apply elem_of_dom in Hk as [v Hv].
  change hrmonitorapp_initial with ACTIVITY_SCHEMA. rewrite Hv. f_equal.
  apply dict_lookup_Some in Hv.
  repeat (apply elem_of_cons in Hv as [[= _ ->]|Hv]; [reflexivity|]).
  inversion Hv.
Qed.

Section ExportFile.

Variable open_text : string -> result (list string).
Variable np_float : string -> option float.

#[local] Abbreviation _hrmonitorapp_parse_recordings :=
  (Data._hrmonitorapp_parse_recordings np_float).
#[local] Abbreviation load_hrmonitorapp_loop :=
  (Data.load_hrmonitorapp_loop np_float).
#[local] Abbreviation load_hrmonitorapp :=
  (Data.load_hrmonitorapp open_text np_float).

(** The scan only ever writes the three keys of the statistics. *)
Lemma load_hrmonitorapp_loop_other_keys (fuel : nat) (file_ : list string)
    data recordings data' recordings' (k : string) :
  k ∉ ({["datetime_start"; "datetime_end"; "duration"]} : gset string) ->
  load_hrmonitorapp_loop fuel file_ data recordings
  = Some (Ok (data', recordings')) ->
  data' !! k = data !! k.
Proof.
  intros Hk. revert file_ data recordings.
  induction fuel as [|fuel IH]; intros file_ data recordings H;
    destruct file_ as [|line file_]; simpl in H; try discriminate;
    try (injection H as <- <-; reflexivity).
  destruct (_get_lines_until_blank file_) as [lines rest].
  destruct (String.eqb (strip line) "{Statistics}").
  - destruct (_hrmonitorapp_parse_stats lines) as [stats|] eqn:Hstats;
      [|discriminate].
    apply parse_stats_dom in Hstats.
    apply IH in H. rewrite H. apply lookup_union_r.
    apply not_elem_of_dom. now rewrite Hstats.
  - destruct (String.eqb (strip line) "{History}").
    + destruct (_hrmonitorapp_parse_recordings lines); [|discriminate].
      now apply IH in H.
    + now apply IH in H.
Qed.

(** X8. For an HRMonitorApp export the loader only ever supplies
    [datetime_start], [datetime_end] and [duration]: every other key of
    the schema is [None] in the metadata it returns. *)
Theorem load_hrmonitorapp_other_keys (path : string) meta recordings
    (k : string) :
  load_hrmonitorapp path = Ok (meta, recordings) ->
  k ∈ dom ACTIVITY_SCHEMA ->
  k ∉ ({["datetime_start"; "datetime_end"; "duration"]} : gset string) ->
  meta !! k = Some VNone.
Proof.
  unfold Data.load_hrmonitorapp. intros H Hk Hk'.
  apply bind_Ok in H as (file_ & _ & H).
  destruct (Data.load_hrmonitorapp_loop _ _ _ _ _) as [[[data r]|]|]
    eqn:Hloop; simpl in H; try discriminate.
  destruct r; [|discriminate]. injection H as <- <-.
  rewrite (load_hrmonitorapp_loop_other_keys _ _ _ _ _ _ _ Hk' Hloop).
  now apply initial_lookup.
Qed.

Lemma load_hrmonitorapp_loop_no_statistics (fuel : nat)
    (file_ : list string) data recordings data' recordings' :
  Forall (fun line => String.eqb (strip line) "{Statistics}" = false) file_ ->
  load_hrmonitorapp_loop fuel file_ data recordings
  = Some (Ok (data', recordings')) ->
  data' = data.
Proof.
  revert file_ data recordings.
  induction fuel as [|fuel IH]; intros file_ data recordings Hno H;
    destruct file_ as [|line file_]; simpl in H; try discriminate;
    try (injection H as <- <-; reflexivity).
  apply Forall_cons in Hno as [Hline Hno]. rewrite Hline in H.
  pose proof (get_lines_until_blank_rest file_) as [_ Hin].
  destruct (_get_lines_until_blank file_) as [lines rest]. simpl in Hin.
  destruct (String.eqb (strip line) "{History}").
  - destruct (_hrmonitorapp_parse_recordings lines); [|discriminate].
    apply IH in H; [exact H|].
    rewrite Forall_forall in Hno |- *. intros l Hl. apply Hno, Hin, Hl.
  - apply IH in H; [exact H|exact Hno].
Qed.

(** X9. An export without a [{Statistics}] line is not refused for it:
    when the loader returns, all of the metadata is [None], the start, the
    end and the duration included. *)
Theorem load_hrmonitorapp_without_statistics (path : string)
    (file_ : list string) meta recordings :
  open_text path = Ok file_ ->
  Forall (fun line => String.eqb (strip line) "{Statistics}" = false) file_ ->
  load_hrmonitorapp path = Ok (meta, recordings) ->
  meta = ACTIVITY_SCHEMA.
Proof.
  unfold Data.load_hrmonitorapp. intros Hopen Hno H.
  rewrite Hopen in H. simpl in H.
  destruct (Data.load_hrmonitorapp_loop _ _ _ _ _) as [[[data r]|]|]
    eqn:Hloop; simpl in H; try discriminate.
  destruct r; [|discriminate]. injection H as <- <-.
  now apply load_hrmonitorapp_loop_no_statistics in Hloop.
Qed.

Lemma load_hrmonitorapp_loop_skip (junk file_ : list string)
    data recordings :
  Forall (fun line => is_section_line line = false) junk ->
  load_hrmonitorapp_loop (length (junk ++ file_)) (junk ++ file_)
                         data recordings
  = load_hrmonitorapp_loop (length file_) file_ data recordings.
Proof.
  induction 1 as [|line junk Hline _ IH]; [reflexivity|].
  unfold is_section_line in Hline.
  apply orb_false_iff in Hline as [Hs Hh].
  simpl. rewrite Hs, Hh.
  destruct (_get_lines_until_blank (junk ++ file_)). exact IH.
Qed.

(** X10. Lines before the first section of an export are ignored: two
    exports that differ only by such lines are loaded alike. *)
Theorem load_hrmonitorapp_leading_lines (path path' : string)
    (junk file_ : list string) :
  open_text path = Ok (junk ++ file_)%list ->
  open_text path' = Ok file_ ->
  Forall (fun line => is_section_line line = false) junk ->
  load_hrmonitorapp path = load_hrmonitorapp path'.
Proof.
  intros H H' Hjunk. unfold Data.load_hrmonitorapp.
  rewrite H, H'. simpl.
  now rewrite (load_hrmonitorapp_loop_skip _ _ _ _ Hjunk).
Qed.

End ExportFile.

(** *** The FIT normaliser *)

Lemma from_records_lookup (rows : list (gmap string pyval)) (c : string) :
  from_records rows !! c
  = if bool_decide (Exists (fun row => is_Some (row !! c)) rows)
    then Some (column c rows) else None.
Proof.
  destruct (from_records rows !! c) as [cells|] eqn:E.
  - apply from_records_lookup_Some in E as (-> & row & Hin & Hc).
    rewrite bool_decide_eq_true_2; [reflexivity|].
    apply Exists_exists. eauto.
  - case_bool_decide as Hex; [|reflexivity].
    apply Exists_exists in Hex as (row & Hin & Hc).
    assert (Hsome : from_records rows !! c = Some (column c rows)).
    { unfold from_records. apply lookup_set_to_map.
      - intros ? ? _ _ Heq. exact Heq.
      - exists c. split; [|reflexivity]. unfold column_names.
        apply elem_of_union_list. exists (dom row).
        split; [now apply list_elem_of_fmap_2|]. now apply elem_of_dom. }
    rewrite E in Hsome. discriminate.
Qed.

Lemma getitem_None {V} (d : gmap string V) (k : string) :
  d !! k = None -> getitem d k = Err (KeyError k).
Proof. unfold getitem. now intros ->. Qed.

(** The scan of the events stops at the first message it cannot read. *)
Lemma scan_events_readable (events : list (gmap string pyval))
    (st : pyval * pyval) :
  if forallb event_readable events
  then exists st', scan_events events st = Ok st'
  else exists k, scan_events events st = Err (KeyError k).
Proof.
  revert st. induction events as [|ev events IH]; intros st; simpl.
  - eauto.
  - unfold event_readable at 1. unfold getitem.
    destruct (ev !! "event") as [event|]; simpl; [|eauto].
    destruct (eq_str event "timer"); simpl; [|apply IH].
    destruct (ev !! "event_type") as [event_type|]; simpl; [|eauto].
    destruct (eq_str event_type "start"); simpl.
    + destruct (ev !! "timestamp") as [t|]; simpl; [apply IH|eauto].
    + destruct (eq_str event_type "stop_all"); simpl; [|apply IH].
      destruct (ev !! "timestamp") as [t|]; simpl; [apply IH|eauto].
Qed.

Section Fit.

Variable FitFile : string -> result (list message).
Variable np_int_nanmean : list pyval -> result pyval.
Variable np_int_nanmedian : list pyval -> result pyval.
Variable np_duration_s : list pyval -> result pyval.

#[local] Abbreviation load_fit :=
  (Data.load_fit FitFile np_int_nanmean np_int_nanmedian np_duration_s).
#[local] Abbreviation load_fit_records := (Data.load_fit_records FitFile).

(** Every step of a successful [load_fit]. *)
Lemma load_fit_steps (path : string) meta recordings :
  load_fit path = Ok (meta, recordings) ->
  exists messages data_sport data_file_id
         name sport sub_sport device_manufacturer device_model
         datetime_start datetime_end heartrate_mean heartrate_median
         timestamps duration distances distance,
    FitFile path = Ok messages
    /\ recordings = from_records (get_messages messages "record")
    /\ head (get_messages messages "sport") = Some data_sport
    /\ head (get_messages messages "file_id") = Some data_file_id
    /\ data_file_id !! "manufacturer" = Some device_manufacturer
    /\ (if eq_str device_manufacturer "garmin"
        then getitem data_file_id "garmin_product" else Ok VNone)
       = Ok device_model
    /\ match recordings !! "heart_rate" with
       | Some heartrate =>
           mean ← np_int_nanmean heartrate;
           median ← np_int_nanmedian heartrate;
           Ok (mean, median)
       | None => Ok (VNone, VNone)
       end = Ok (heartrate_mean, heartrate_median)
    /\ recordings !! "timestamp" = Some timestamps
    /\ np_duration_s timestamps = Ok duration
    /\ recordings !! "distance" = Some distances
    /\ last distances = Some distance
    /\ meta
       = dict [("device_manufacturer", device_manufacturer);
               ("device_model", device_model);
               ("datetime_start", datetime_start);
               ("datetime_end", datetime_end);
               ("name", name); ("sport", sport); ("sub_sport", sub_sport);
               ("duration", duration); ("distance", distance);
               ("heartrate_mean", heartrate_mean);
               ("heartrate_median", heartrate_median)].
Proof.
  unfold Data.load_fit. intros H.
  apply bind_Ok in H as (messages & Hfit & H).
  rewrite !defaultdict_get_group in H.
  apply bind_Ok in H as (data_sport & Hsport & H).
  apply bind_Ok in H as (name & _ & H).
  apply bind_Ok in H as (sport & _ & H).
  apply bind_Ok in H as (sub_sport & _ & H).
  apply bind_Ok in H as (data_file_id & Hfile & H).
  apply bind_Ok in H as (device_manufacturer & Hman%getitem_Ok & H).
  apply bind_Ok in H as (device_model & Hmodel & H).
  apply bind_Ok in H as ([datetime_start datetime_end] & _ & H).
  apply bind_Ok in H as ([heartrate_mean heartrate_median] & Hhr & H).
  apply bind_Ok in H as (timestamps & Hts%getitem_Ok & H).
  apply bind_Ok in H as (duration & Hdur & H).
  apply bind_Ok in H as (distances & Hds%getitem_Ok & H).
  apply bind_Ok in H as (distance & Hd & H).
  injection H as <- <-.
  unfold index in Hsport, Hfile. unfold index_last in Hd.
  destruct (get_messages messages "sport") as [|s sports] eqn:Es;
    [discriminate|]. injection Hsport as ->.
  destruct (get_messages messages "file_id") as [|f file_ids] eqn:Ef;
    [discriminate|]. injection Hfile as ->.
  destruct (last distances) as [d|] eqn:El; [|discriminate].
  injection Hd as ->.
  exists messages, data_sport, data_file_id.
  exists name, sport, sub_sport, device_manufacturer, device_model.
  exists datetime_start, datetime_end, heartrate_mean, heartrate_median.
  exists timestamps, duration, distances, distance.
  repeat split;
    first [assumption | reflexivity | now rewrite Es | now rewrite Ef].
Qed.

(** X11. The recordings that [load_fit] returns are aligned: there is a
    channel for every field that some [record] message has and for no
    other name, every channel has one cell for each [record] message (at
    least one), and the cell of a message is its field, or the
    missing-value marker when the message lacks the field. *)
Theorem load_fit_recordings_aligned (path : string)
    (messages : list message) meta recordings :
  FitFile path = Ok messages ->
  load_fit path = Ok (meta, recordings) ->
  let rows := get_messages messages "record" in
  (0 < length rows)%nat
  /\ length rows
     = length (filter (fun m => msg_name m = "record") messages)
  /\ (forall channel,
        channel ∈ dom recordings
        <-> Exists (fun row => is_Some (row !! channel)) rows)
  /\ forall channel cells,
       recordings !! channel = Some cells ->
       length cells = length rows
       /\ forall (i : nat) row,
            rows !! i = Some row ->
            cells !! i = Some (default VNone (row !! channel)).
Proof.
  intros Hfit H. apply load_fit_steps in H
    as (messages' & ? & ? & ? & ? & ? & ? & ? & ? & ? & ? & ? & timestamps
        & ? & ? & ? & Hfit' & -> & _ & _ & _ & _ & _ & Hts & _).
  rewrite Hfit in Hfit'. injection Hfit' as <-.
  cbv zeta. split; [|split; [|split]].
  - rewrite from_records_lookup in Hts.
    case_bool_decide as Hex; [|discriminate].
    apply Exists_exists in Hex as (row & Hin & _).
    destruct (get_messages messages "record"); [inversion Hin|simpl; lia].
  - unfold get_messages. apply length_fmap.
  - intros channel. rewrite elem_of_dom, from_records_lookup.
    case_bool_decide as Hex.
    + split; [intros _; exact Hex | intros _; eauto].
    + split; [intros [? [=]] | intros Hc; destruct (Hex Hc)].
  - intros channel cells Hc. rewrite from_records_lookup in Hc.
    case_bool_decide; [|discriminate]. injection Hc as <-.
    unfold column. split; [now rewrite length_fmap|].
    intros i row Hi. now rewrite list_lookup_fmap, Hi.
Qed.

(** X12. The device fields come from the first [file_id] message:
    [device_manufacturer] is its [manufacturer], and [device_model] is its
    [garmin_product] when the manufacturer is the string [garmin] and
    [None] for every other manufacturer. *)
Theorem load_fit_device (path : string) (messages : list message)
    meta recordings :
  FitFile path = Ok messages ->
  load_fit path = Ok (meta, recordings) ->
  exists data_file_id,
    head (get_messages messages "file_id") = Some data_file_id
    /\ is_Some (meta !! "device_manufacturer")
    /\ meta !! "device_manufacturer" = data_file_id !! "manufacturer"
    /\ (data_file_id !! "manufacturer" = Some (VStr "garmin") ->
        is_Some (meta !! "device_model")
        /\ meta !! "device_model" = data_file_id !! "garmin_product")
    /\ (data_file_id !! "manufacturer" <> Some (VStr "garmin") ->
        meta !! "device_model" = Some VNone).
Proof.
  intros Hfit H. apply load_fit_steps in H
    as (messages' & ? & data_file_id & ? & ? & ? & manufacturer & model
        & ? & ? & ? & ? & ? & ? & ? & ? & Hfit' & _ & _ & Hf & Hman & Hmodel
        & _ & _ & _ & _ & _ & ->).
  rewrite Hfit in Hfit'. injection Hfit' as <-.
  exists data_file_id. rewrite Hman.
  split; [exact Hf|]. split; [eexists; dict_lookup|].
  split; [dict_lookup|]. split.
  - intros [= ->]. simpl in Hmodel. apply getitem_Ok in Hmodel.
    rewrite Hmodel. split; [eexists; dict_lookup|dict_lookup].
  - intros Hne. destruct (eq_str manufacturer "garmin") eqn:Eg.
    + apply eq_str_true in Eg. congruence.
    + injection Hmodel as <-. dict_lookup.
Qed.

(** X13. With a readable [sport] message, [load_fit] raises [IndexError]
    for a file without a [file_id] message, [KeyError] for a first
    [file_id] message without [manufacturer], and [KeyError] for one of
    manufacturer [garmin] without [garmin_product]. *)
Theorem load_fit_device_errors (path : string) (messages : list message)
    (data_sport : gmap string pyval) :
  FitFile path = Ok messages ->
  head (get_messages messages "sport") = Some data_sport ->
  is_Some (data_sport !! "name") ->
  is_Some (data_sport !! "sport") ->
  is_Some (data_sport !! "sub_sport") ->
  (get_messages messages "file_id" = [] -> load_fit path = Err IndexError)
  /\ (forall data_file_id,
        head (get_messages messages "file_id") = Some data_file_id ->
        (data_file_id !! "manufacturer" = None ->
         load_fit path = Err (KeyError "manufacturer"))
        /\ (data_file_id !! "manufacturer" = Some (VStr "garmin") ->
            data_file_id !! "garmin_product" = None ->
            load_fit path = Err (KeyError "garmin_product"))).
Proof.
  intros Hfit Hs [name Hname%getitem_Ok] [sport Hsport%getitem_Ok]
    [sub Hsub%getitem_Ok].
  unfold Data.load_fit. rewrite Hfit. simpl.
  rewrite !defaultdict_get_group.
  destruct (get_messages messages "sport") as [|s sports];
    [discriminate|]. injection Hs as ->.
  unfold index at 1. simpl. rewrite Hname. simpl.
  rewrite Hsport. simpl. rewrite Hsub. simpl. split.
  - intros ->. reflexivity.
  - intros data_file_id Hf.
    destruct (get_messages messages "file_id") as [|f fs];
      [discriminate|]. injection Hf as ->.
    unfold index. simpl. split.
    + intros Hm. rewrite (getitem_None _ _ Hm). reflexivity.
    + intros Hm%getitem_Ok Hp. rewrite Hm. simpl.
      rewrite (getitem_None _ _ Hp). reflexivity.
Qed.

(** X14. The heart-rate statistics are [None] exactly when no [record]
    message has a [heart_rate] field; otherwise they are the mean and the
    median that numpy computes over the whole [heart_rate] channel,
    missing cells included. *)
Theorem load_fit_heartrate (path : string) (messages : list message)
    meta recordings :
  FitFile path = Ok messages ->
  load_fit path = Ok (meta, recordings) ->
  let rows := get_messages messages "record" in
  (Forall (fun row => row !! "heart_rate" = None) rows ->
   meta !! "heartrate_mean" = Some VNone
   /\ meta !! "heartrate_median" = Some VNone)
  /\ (Exists (fun row => is_Some (row !! "heart_rate")) rows ->
      exists mean median,
        np_int_nanmean (column "heart_rate" rows) = Ok mean
        /\ np_int_nanmedian (column "heart_rate" rows) = Ok median
        /\ meta !! "heartrate_mean" = Some mean
        /\ meta !! "heartrate_median" = Some median).
Proof.
  intros Hfit H. apply load_fit_steps in H
    as (messages' & ? & ? & ? & ? & ? & ? & ? & ? & ? & hmean & hmedian
        & ? & ? & ? & ? & Hfit' & -> & _ & _ & _ & _ & Hhr & _ & _ & _ & _
        & ->).
  rewrite Hfit in Hfit'. injection Hfit' as <-.
  cbv zeta. rewrite from_records_lookup in Hhr. split.
  - intros Hnone. rewrite bool_decide_eq_false_2 in Hhr.
    + injection Hhr as <- <-. split; dict_lookup.
    + intros Hex. apply Exists_exists in Hex as (row & Hin & [v Hv]).
      rewrite Forall_forall in Hnone. rewrite (Hnone row Hin) in Hv.
      discriminate.
  - intros Hex. rewrite bool_decide_eq_true_2 in Hhr by exact Hex.
    apply bind_Ok in Hhr as (mean & Hmean & Hhr).
    apply bind_Ok in Hhr as (median & Hmedian & Hhr).
    injection Hhr as <- <-. exists mean, median.
    repeat split; try assumption; dict_lookup.
Qed.

(** X15. [distance] is the [distance] field of the last [record] message
    of the file, and the missing-value marker when that message has none,
    whatever the earlier messages hold; [duration] is what numpy computes
    from the [timestamp] channel. *)
Theorem load_fit_distance_duration (path : string)
    (messages : list message) meta recordings :
  FitFile path = Ok messages ->
  load_fit path = Ok (meta, recordings) ->
  exists last_row duration,
    last (get_messages messages "record") = Some last_row
    /\ meta !! "distance" = Some (default VNone (last_row !! "distance"))
    /\ np_duration_s (column "timestamp" (get_messages messages "record"))
       = Ok duration
    /\ meta !! "duration" = Some duration.
Proof.
  intros Hfit H. apply load_fit_steps in H
    as (messages' & ? & ? & ? & ? & ? & ? & ? & ? & ? & ? & ?
        & timestamps & duration & distances & distance & Hfit' & -> & _ & _
        & _ & _ & _ & Hts & Hdur & Hds & Hlast & ->).
  rewrite Hfit in Hfit'. injection Hfit' as <-.
  apply from_records_lookup_Some in Hts as (-> & _).
  apply from_records_lookup_Some in Hds as (-> & _).
  unfold column in Hlast. rewrite fmap_last in Hlast.
  destruct (last (get_messages messages "record")) as [last_row|];
    [|discriminate]. injection Hlast as <-.
  exists last_row, duration.
  split; [reflexivity|]. split; [dict_lookup|].
  split; [exact Hdur|dict_lookup].
Qed.

(** X16. [load_fit_records] returns the rows from which a successful
    [load_fit] builds its recordings, and there is at least one; on a file
    without record messages [load_fit_records] still succeeds, with no
    rows, and [load_fit] fails. *)
Theorem load_fit_records_table (path : string) :
  (forall meta recordings,
     load_fit path = Ok (meta, recordings) ->
     exists records,
       load_fit_records path = Ok records
       /\ records <> []
       /\ recordings = from_records records)
  /\ (forall messages,
        FitFile path = Ok messages ->
        filter (fun m => msg_name m = "record") messages = [] ->
        load_fit_records path = Ok []
        /\ exists e, load_fit path = Err e).
Proof.
  assert (Hok : forall meta recordings,
             load_fit path = Ok (meta, recordings) ->
             exists records,
               load_fit_records path = Ok records
               /\ records <> []
               /\ recordings = from_records records).
  { intros meta recordings H. apply load_fit_steps in H
      as (messages & ? & ? & ? & ? & ? & ? & ? & ? & ? & ? & ? & timestamps
          & ? & ? & ? & Hfit & -> & _ & _ & _ & _ & _ & Hts & _).
    exists (get_messages messages "record").
    unfold Data.load_fit_records. rewrite Hfit.
    split; [reflexivity|]. split; [|reflexivity].
    intros Hnil. rewrite Hnil in Hts. discriminate Hts. }
  split; [exact Hok|].
  intros messages Hfit Hnone.
  assert (Hrec : load_fit_records path = Ok []).
  { unfold Data.load_fit_records, get_messages. rewrite Hfit. simpl.
    now rewrite Hnone. }
  split; [exact Hrec|].
  destruct (load_fit path) as [[meta recordings]|e] eqn:E; [|eauto].
  destruct (Hok meta recordings eq_refl) as (records & Hr & Hne & _).
  rewrite Hrec in Hr. injection Hr as <-. now destruct Hne.
Qed.

End Fit.

(** *** The events, the RR intervals and the duration filter *)

Section FitEvents.

Variable FitFile : string -> result (list message).
Variable np_loadtxt : string -> result (list float).
Variable np_int_nanmean : list pyval -> result pyval.
Variable np_int_nanmedian : list pyval -> result pyval.
Variable np_duration_s : list pyval -> result pyval.

#[local] Abbreviation load_fit :=
  (Data.load_fit FitFile np_int_nanmean np_int_nanmedian np_duration_s).
#[local] Abbreviation load_rr := (Data.load_rr FitFile np_loadtxt).

(** X17. The loop over the event messages reads every one of them: it
    ends normally when each message has an [event] field, each timer event
    an [event_type] field and each timer [start] or [stop_all] event a
    [timestamp] field, and raises [KeyError] otherwise; so one unreadable
    event message, a timer event or not, makes [load_fit] fail. *)
Theorem load_fit_unreadable_event (path : string)
    (messages : list message) (st : pyval * pyval) :
  FitFile path = Ok messages ->
  let events := get_messages messages "event" in
  (Forall (fun ev => event_readable ev = true) events ->
   exists st', scan_events events st = Ok st')
  /\ (Exists (fun ev => event_readable ev = false) events ->
      (exists k, scan_events events st = Err (KeyError k))
      /\ exists e, load_fit path = Err e).
Proof.
  intros Hfit. cbv zeta. split.
  - intros Hall.
    pose proof (scan_events_readable (get_messages messages "event") st)
      as Hscan.
    rewrite (proj2 (forallb_forall _ _)) in Hscan; [exact Hscan|].
    intros ev Hin. rewrite Forall_forall in Hall.
    apply Hall. now apply list_elem_of_In.
  - intros Hex.
    assert (Hf : forallb event_readable (get_messages messages "event")
                 = false).
    { apply not_true_iff_false. intros Hall.
      rewrite forallb_forall in Hall.
      apply Exists_exists in Hex as (ev & Hin & Hev).
      rewrite (Hall ev) in Hev; [discriminate|]. now apply list_elem_of_In. }
    split.
    + pose proof (scan_events_readable (get_messages messages "event") st)
        as Hscan. now rewrite Hf in Hscan.
    + destruct (load_fit path) as [[meta recordings]|e] eqn:E; [|eauto].
      apply load_fit_Ok in E
        as (messages' & ? & ? & ? & ? & ? & ? & ? & ? & ? & s & e & ? & ?
            & ? & ? & ? & ? & Hfit' & _ & _ & _ & _ & _ & _ & _ & Hev & _).
      rewrite Hfit in Hfit'. injection Hfit' as <-.
      pose proof (scan_events_readable (get_messages messages "event")
                    (VNone, VNone)) as Hscan.
      rewrite Hf, Hev in Hscan. destruct Hscan as [? [=]].
Qed.

(** X18. The RR intervals read from a FIT file never hold [None]: they
    are the values of the [hrv] messages in file order, with the missing
    ones left out and nothing else changed. *)
Theorem load_rr_fit_values (path : string) (messages : list message)
    (out : list pyval) :
  lower (suffix path) = ".fit" ->
  FitFile path = Ok messages ->
  load_rr path = Ok out ->
  Forall (fun v => v <> VNone) out
  /\ sublist out
       (concat (tuple_items
                  <$> concat ((fun m => (msg_fields m).*2)
                                <$> filter (fun m => msg_name m = "hrv")
                                           messages)))
  /\ forall v, v ∈ concat (tuple_items
                  <$> concat ((fun m => (msg_fields m).*2)
                                <$> filter (fun m => msg_name m = "hrv")
                                           messages)) ->
               v <> VNone -> v ∈ out.
Proof.
  intros Hsuffix Hfit. unfold Data.load_rr, load_rr_from_fit.
  rewrite Hsuffix, Hfit. simpl. intros H.
  apply bind_Ok in H as (rr & Hrr & H). injection H as <-.
  assert (Hflat : rr = concat (tuple_items
                  <$> concat ((fun m => (msg_fields m).*2)
                                <$> filter (fun m => msg_name m = "hrv")
                                           messages))).
  { unfold array_flatten in Hrr.
    destruct (concat _) as [|v vs] eqn:Ev in Hrr.
    - injection Hrr as <-.
      change (fun m : message => (msg_fields m).*2)
        with (fun record : message => snd <$> msg_fields record).
      now rewrite Ev.
    - destruct (forallb _ _); [|discriminate]. injection Hrr as <-.
      change (fun m : message => (msg_fields m).*2)
        with (fun record : message => snd <$> msg_fields record).
      now rewrite Ev. }
  subst rr. split; [|split].
  - apply Forall_forall. intros v Hv.
    apply list_elem_of_filter in Hv as [Hv _].
    intros ->. discriminate Hv.
  - apply sublist_filter.
  - intros v Hv Hne. apply list_elem_of_filter. split; [|exact Hv].
    destruct v; try reflexivity. now destruct Hne.
Qed.

End FitEvents.

Lemma split_append (sep : ascii) (a b : string) :
  split sep a = [a] ->
  split sep (a ++ String sep b) = a :: split sep b.
Proof.
  induction a as [|c a IH]; intros H.
  - rewrite append_nil_l. simpl. now rewrite Ascii.eqb_refl.
  - rewrite append_cons. simpl in *.
    destruct (Ascii.eqb c sep); [discriminate|].
    destruct (split_cons sep a) as (w & ws & Ea). rewrite Ea in H.
    injection H as -> ->. now rewrite (IH Ea).
Qed.

Lemma prints_back_all : all_from prints_back 60 0 = true.
Proof. by_evaluation. Qed.

Lemma prints_back_spec (n : Z) :
  0 <= n < 60 ->
  split ":" (Web.format_d n) = [Web.format_d n]
  /\ split ":" (Web.format_02d n) = [Web.format_02d n]
  /\ int (Web.format_d n) = Ok n
  /\ int (Web.format_02d n) = Ok n
  /\ len (Web.format_02d n) = 2.
Proof.
  intros Hn.
  pose proof (all_from_spec prints_back 60 0 n prints_back_all ltac:(lia))
    as H.
  unfold prints_back in H.
  repeat (apply andb_true_iff in H as [H ?]).
  repeat match goal with
         | H : bool_decide _ = true |- _ => apply bool_decide_eq_true in H
         | H : (_ =? _) = true |- _ => apply Z.eqb_eq in H
         end.
  destruct (int (Web.format_d n)) as [z|]; [|discriminate].
  destruct (int (Web.format_02d n)) as [z'|]; [|discriminate].
  repeat match goal with
         | H : (_ =? _) = true |- _ => apply Z.eqb_eq in H
         end.
  subst. auto.
Qed.

(** X19. For a duration of less than a day the template filter shows
    [H:MM:SS]: three fields between colons, the minutes and the seconds on
    two digits, which read back as numbers give the duration again. *)
Theorem format_seconds_reads_back (seconds : Z) :
  0 <= seconds < 86400 ->
  exists shown hh mm ss,
    Web.format_seconds_to_days_hours_minutes_seconds seconds = Ok shown
    /\ split ":" shown = [hh; mm; ss]
    /\ len mm = 2 /\ len ss = 2
    /\ exists h m s,
         int hh = Ok h /\ int mm = Ok m /\ int ss = Ok s
         /\ 0 <= h < 24 /\ 0 <= m < 60 /\ 0 <= s < 60
         /\ h * 3600 + m * 60 + s = seconds.
Proof.
  intros Hs. unfold Web.format_seconds_to_days_hours_minutes_seconds.
  unfold timedelta_of_seconds.
  rewrite (Z.div_small seconds 86400), (Z.mod_small seconds 86400) by lia.
  simpl. unfold Web.timedelta_str. simpl.
  set (h := seconds / 60 / 60). set (m := (seconds / 60) mod 60).
  set (s := seconds mod 60).
  assert (Hh : 0 <= h < 24).
  { unfold h. rewrite Z.div_div by lia. split.
    - apply Z.div_pos; lia.
    - apply Z.div_lt_upper_bound; lia. }
  assert (Hm : 0 <= m < 60) by (apply Z.mod_pos_bound; lia).
  assert (Hsec : 0 <= s < 60) by (apply Z.mod_pos_bound; lia).
  destruct (prints_back_spec h ltac:(lia)) as (Hh1 & _ & Hh3 & _ & _).
  destruct (prints_back_spec m ltac:(lia)) as (_ & Hm2 & _ & Hm4 & Hm5).
  destruct (prints_back_spec s ltac:(lia)) as (_ & Hs2 & _ & Hs4 & Hs5).
  exists (Web.format_d h ++ ":" ++ Web.format_02d m ++ ":"
          ++ Web.format_02d s).
  exists (Web.format_d h), (Web.format_02d m), (Web.format_02d s).
  split; [reflexivity|]. split.
  - change (":" ++ Web.format_02d m ++ ":" ++ Web.format_02d s)
      with (String ":" (Web.format_02d m ++ String ":" (Web.format_02d s))).
    rewrite (split_append _ _ _ Hh1), (split_append _ _ _ Hm2), Hs2.
    reflexivity.
  - split; [exact Hm5|]. split; [exact Hs5|].
    exists h, m, s. repeat (split; [assumption || lia|]).
    unfold h, m, s.
    pose proof (Z.div_mod seconds 60 ltac:(lia)).
    pose proof (Z.div_mod (seconds / 60) 60 ltac:(lia)). lia.
Qed.

(** ** The further properties at concrete inputs *)

Import Fixture Sample.

Lemma parse_stats_end_minus_start_witness :
  exists datetime_start datetime_end duration,
    new_year_stats !! "datetime_start" = Some (VDatetime datetime_start)
    /\ new_year_stats !! "datetime_end" = Some (VDatetime datetime_end)
    /\ new_year_stats !! "duration" = Some (VInt duration)
    /\ seconds_between datetime_start datetime_end = duration.
Proof.
  apply (parse_stats_end_minus_start new_year_lines new_year_stats).
  by_evaluation.
Defined.


Lemma parse_stats_errors_witness :
  _hrmonitorapp_parse_stats ["date,01/02/23"; "start"] = Err IndexError
  /\ _hrmonitorapp_parse_stats ["date,01/02/23"; "duration,01:30:00"]
     = Err (KeyError "start").
Proof.
  split.
  - apply (proj1 (parse_stats_errors ["date,01/02/23"; "start"])).
    apply Exists_cons_tl, Exists_cons_hd. unfold has_comma.
    vm_compute. lia.
  - apply (proj1 (proj2 (proj2 (parse_stats_errors
               ["date,01/02/23"; "duration,01:30:00"])
               ltac:(repeat constructor; unfold has_comma; vm_compute; lia)))).
    + eexists. reflexivity.
    + reflexivity.
Defined.


Lemma get_lines_until_blank_spec_witness :
  _get_lines_until_blank
    (text_lines ["date,01/02/23"; " start,10:00:00 "; " "; "{History}"])
  = (["date,01/02/23"; "start,10:00:00"], text_lines ["{History}"]).
Proof.
  apply (proj1 (get_lines_until_blank_spec
                  (text_lines ["date,01/02/23"; " start,10:00:00 "])
                  (text_lines ["{History}"])
                  (" " ++ newline)
                  ltac:(repeat constructor; vm_compute; discriminate))).
  reflexivity.
Defined.

Lemma parse_recordings_aligned_witness :
  exists header rows,
    history_lines = header :: rows
    /\ (forall channel cells,
          history_recordings !! channel = Some cells ->
          length cells = length rows)
    /\ dom history_recordings
       = list_to_set
           (take (default 0%nat
                    ((fun row => length (split "," row)) <$> head rows))
                 (channel_names header)).
Proof.
  apply (parse_recordings_aligned float_of_token history_lines
           history_recordings).
  by_evaluation.
Defined.

Lemma parse_recordings_errors_witness :
  _hrmonitorapp_parse_recordings float_of_token
    ["SEC,HR_BPM"; "0,60"; "1"] = Err (ValueError "inhomogeneous shape")
  /\ _hrmonitorapp_parse_recordings float_of_token
       ["SEC,HR_BPM"; "0,60"; "1,n/a"]
     = Err (ValueError "could not convert string to float").
Proof.
  split.
  - apply (proj1 (proj2 (parse_recordings_errors float_of_token
                           "SEC,HR_BPM" "0,60" ["1"]))).
    apply Exists_cons_hd. vm_compute. discriminate.
  - apply (proj2 (proj2 (parse_recordings_errors float_of_token
                           "SEC,HR_BPM" "0,60" ["1,n/a"]))).
    + repeat constructor.
    + apply Exists_cons_tl, Exists_cons_hd, Exists_cons_tl, Exists_cons_hd.
      reflexivity.
Defined.

Lemma load_hrmonitorapp_other_keys_witness :
  full_export_metadata !! "distance" = Some VNone.
Proof.
  apply (load_hrmonitorapp_other_keys text_files float_of_token
           "exports/user_hr_data_full.csv" full_export_metadata
           history_recordings "distance").
  - by_evaluation.
  - by_decision.
  - by_decision.
Defined.

Lemma load_hrmonitorapp_without_statistics_witness :
  exists meta recordings,
    load_hrmonitorapp more_text_files float_of_token
                      "exports/user_hr_data_history.csv"
    = Ok (meta, recordings)
    /\ meta = ACTIVITY_SCHEMA.
Proof.
  assert (H : load_hrmonitorapp more_text_files float_of_token
                                "exports/user_hr_data_history.csv"
              = Ok (hrmonitorapp_initial, history_recordings))
    by by_evaluation.
  exists hrmonitorapp_initial, history_recordings.
  split; [exact H|].
  apply (load_hrmonitorapp_without_statistics more_text_files float_of_token
           "exports/user_hr_data_history.csv" history_only_export
           hrmonitorapp_initial history_recordings eq_refl).
  - by_decision.
  - exact H.
Defined.

Lemma load_hrmonitorapp_leading_lines_witness :
  load_hrmonitorapp more_text_files float_of_token
                    "exports/user_hr_data_full.csv"
  = load_hrmonitorapp more_text_files float_of_token
                      "exports/user_hr_data_sections.csv".
Proof.
  apply (load_hrmonitorapp_leading_lines more_text_files float_of_token
           "exports/user_hr_data_full.csv"
           "exports/user_hr_data_sections.csv"
           (take 2 full_export) sections_export).
  - reflexivity.
  - reflexivity.
  - by_decision.
Defined.

Lemma load_fit_recordings_aligned_witness :
  let rows := get_messages paused_activity "record" in
  (0 < length rows)%nat
  /\ length rows
     = length (filter (fun m => msg_name m = "record") paused_activity)
  /\ (forall channel,
        channel ∈ dom paused_recordings
        <-> Exists (fun row => is_Some (row !! channel)) rows)
  /\ forall channel cells,
       paused_recordings !! channel = Some cells ->
       length cells = length rows
       /\ forall (i : nat) row,
            rows !! i = Some row ->
            cells !! i = Some (default VNone (row !! channel)).
Proof.
  apply (load_fit_recordings_aligned fit_files int_nanmean int_nanmedian
           duration_s "activities/paused.fit" paused_activity
           paused_metadata paused_recordings).
  - reflexivity.
  - by_evaluation.
Defined.

Lemma load_fit_device_witness :
  exists data_file_id,
    head (get_messages paused_activity "file_id") = Some data_file_id
    /\ is_Some (paused_metadata !! "device_manufacturer")
    /\ paused_metadata !! "device_manufacturer"
       = data_file_id !! "manufacturer"
    /\ (data_file_id !! "manufacturer" = Some (VStr "garmin") ->
        is_Some (paused_metadata !! "device_model")
        /\ paused_metadata !! "device_model"
           = data_file_id !! "garmin_product")
    /\ (data_file_id !! "manufacturer" <> Some (VStr "garmin") ->
        paused_metadata !! "device_model" = Some VNone).
Proof.
  apply (load_fit_device fit_files int_nanmean int_nanmedian duration_s
           "activities/paused.fit" paused_activity paused_metadata
           paused_recordings).
  - reflexivity.
  - by_evaluation.
Defined.

Lemma load_fit_device_errors_witness :
  load_fit more_fit_files int_nanmean int_nanmedian duration_s
           "activities/no_file_id.fit" = Err IndexError.
Proof.
  apply (proj1 (load_fit_device_errors more_fit_files int_nanmean
                  int_nanmedian duration_s "activities/no_file_id.fit"
                  no_file_id_activity (dict (msg_fields sport_message))
                  eq_refl
                  ltac:(by_evaluation)
                  ltac:(by_decision) ltac:(by_decision) ltac:(by_decision))).
  by_evaluation.
Defined.

Lemma load_fit_heartrate_witness :
  exists mean median,
    int_nanmean (column "heart_rate" (get_messages paused_activity "record"))
    = Ok mean
    /\ int_nanmedian
         (column "heart_rate" (get_messages paused_activity "record"))
       = Ok median
    /\ paused_metadata !! "heartrate_mean" = Some mean
    /\ paused_metadata !! "heartrate_median" = Some median.
Proof.
  apply (proj2 (load_fit_heartrate fit_files int_nanmean int_nanmedian
                  duration_s "activities/paused.fit" paused_activity
                  paused_metadata paused_recordings eq_refl
                  ltac:(by_evaluation))).
  by_decision.
Defined.

Lemma load_fit_distance_duration_witness :
  exists last_row duration,
    last (get_messages paused_activity "record") = Some last_row
    /\ paused_metadata !! "distance"
       = Some (default VNone (last_row !! "distance"))
    /\ duration_s (column "timestamp" (get_messages paused_activity "record"))
       = Ok duration
    /\ paused_metadata !! "duration" = Some duration.
Proof.
  apply (load_fit_distance_duration fit_files int_nanmean int_nanmedian
           duration_s "activities/paused.fit" paused_activity
           paused_metadata paused_recordings).
  - reflexivity.
  - by_evaluation.
Defined.

Lemma load_fit_records_table_witness :
  exists records,
    load_fit_records fit_files "activities/paused.fit" = Ok records
    /\ records <> []
    /\ paused_recordings = from_records records.
Proof.
  apply (proj1 (load_fit_records_table fit_files int_nanmean int_nanmedian
                  duration_s "activities/paused.fit")
               paused_metadata paused_recordings).
  by_evaluation.
Defined.

Lemma load_fit_unreadable_event_witness :
  (exists k,
     scan_events (get_messages marker_activity "event") (VNone, VNone)
     = Err (KeyError k))
  /\ exists e,
       load_fit more_fit_files int_nanmean int_nanmedian duration_s
                "activities/marker.fit" = Err e.
Proof.
  apply (proj2 (load_fit_unreadable_event more_fit_files int_nanmean
                  int_nanmedian duration_s "activities/marker.fit"
                  marker_activity (VNone, VNone) eq_refl)).
  by_decision.
Defined.

Lemma load_rr_fit_values_witness :
  load_rr more_fit_files rr_files "rr/activity.fit"
  = Ok [VFloat 0.75; VFloat 0.8125; VFloat 0.5]
  /\ Forall (fun v => v <> VNone) [VFloat 0.75; VFloat 0.8125; VFloat 0.5].
Proof.
  assert (H : load_rr more_fit_files rr_files "rr/activity.fit"
              = Ok [VFloat 0.75; VFloat 0.8125; VFloat 0.5])
    by by_evaluation.
  split; [exact H|].
  apply (load_rr_fit_values more_fit_files rr_files "rr/activity.fit"
           hrv_activity [VFloat 0.75; VFloat 0.8125; VFloat 0.5]
           eq_refl eq_refl H).
Defined.

Lemma format_seconds_reads_back_witness :
  exists shown hh mm ss,
    Web.format_seconds_to_days_hours_minutes_seconds 5400 = Ok shown
    /\ split ":" shown = [hh; mm; ss]
    /\ len mm = 2 /\ len ss = 2
    /\ exists h m s,
         int hh = Ok h /\ int mm = Ok m /\ int ss = Ok s
         /\ 0 <= h < 24 /\ 0 <= m < 60 /\ 0 <= s < 60
         /\ h * 3600 + m * 60 + s = 5400.
Proof.
  apply (format_seconds_reads_back 5400). lia.
Defined.

Example format_seconds_shown :
  Web.format_seconds_to_days_hours_minutes_seconds 5400 = Ok "1:30:00"
  /\ Web.format_seconds_to_days_hours_minutes_seconds 90061
     = Ok "1 day, 1:01:01"
  /\ Web.format_seconds_to_days_hours_minutes_seconds (-1)
     = Ok "-1 day, 23:59:59"
  /\ Web.format_seconds_to_days_hours_minutes_seconds 200000
     = Ok "2 days, 7:33:20".
Proof. repeat split; by_evaluation. Qed.

End DataExtra.
